(** * ClearEdge: the invoice validator of [src/App.tsx]

    A shallow embedding of [validateInvoiceLocally], [extractMeta], [req] and
    [sampleInvoice], over a model of the JavaScript values the validator can
    be handed ([inv: any]): what [JSON.parse], [csvToInvoice] and
    [sampleInvoice] produce, plus [undefined].

    Numbers are IEEE 754 binary64 (Rocq's primitive floats), strings are
    sequences of UTF-16 code units, and an abrupt completion ([throw]) is an
    explicit result. *)

From Stdlib Require Import ZArith QArith Qround Qabs Qpower List String Ascii Bool Lia.
From Stdlib Require Import DecimalString.
From Stdlib Require Import PrimFloat FloatOps SpecFloat Uint63.
Import ListNotations.

Set Warnings "-inexact-float,-register-all".

(* ================================================================== *)
(** * The JavaScript fragment the validator runs on *)
(* ================================================================== *)

Module JS.

(** ** Completions: a result or a thrown error *)

Inductive error : Type := TypeError.

Inductive completion (A : Type) : Type :=
| Normal (a : A)
| Throw (e : error).
Arguments Normal {A} a.
Arguments Throw {A} e.

Definition bind {A B} (c : completion A) (k : A -> completion B) : completion B :=
  match c with
  | Normal a => k a
  | Throw e => Throw e
  end.

Notation "'let*' x ':=' c 'in' k" := (bind c (fun x => k))
  (at level 10, x name, c at level 100, k at level 200).

(** ** Strings *)

(** A JavaScript string is a sequence of 16-bit code units; [.length] counts
    them.  Only values below 65536 occur in a real string. *)
Definition code_unit : Type := N.
Definition jsstring : Type := list code_unit.

(** An ASCII literal of the source, as a JavaScript string. *)
Definition lit (s : string) : jsstring := map N_of_ascii (list_ascii_of_string s).

Definition jsstring_eqb (s t : jsstring) : bool :=
  if list_eq_dec N.eq_dec s t then true else false.

(** ** Values *)

Inductive value : Type :=
| VUndefined
| VNull
| VBool (b : bool)
| VNum (x : float)
| VStr (s : jsstring)
| VArr (elems : list value)
| VObj (props : list (jsstring * value)).

(** The own data property [k] of an object with properties [props]; the first
    binding of a key is the property. *)
Fixpoint own_property (props : list (jsstring * value)) (k : jsstring) : option value :=
  match props with
  | [] => None
  | (k', v) :: rest => if jsstring_eqb k' k then Some v else own_property rest k
  end.

(** The object with the own data property [k] defined as [v]: overwritten in
    place, or added at the end.  This is what [JSON.parse] does for a member
    of a parsed object, and what an assignment [o[k] = v] does on a plain
    object for every key but [__proto__] (for which see [assign]). *)
Fixpoint set_property (props : list (jsstring * value)) (k : jsstring) (v : value)
  : list (jsstring * value) :=
  match props with
  | [] => [(k, v)]
  | (k', v') :: rest =>
      if jsstring_eqb k' k then (k, v) :: rest else (k', v') :: set_property rest k v
  end.

(** [typeof v === 'number'] *)
Definition is_number (v : value) : bool :=
  match v with VNum _ => true | _ => false end.

(** [typeof v === 'string'] *)
Definition is_string (v : value) : bool :=
  match v with VStr _ => true | _ => false end.

(** [v == null]: true of [null] and [undefined] only. *)
Definition is_nullish (v : value) : bool :=
  match v with VUndefined | VNull => true | _ => false end.

(** ToBoolean: [undefined], [null], [false], [0], [-0], [NaN] and the empty
    string are falsy. *)
Definition ToBoolean (v : value) : bool :=
  match v with
  | VUndefined | VNull => false
  | VBool b => b
  | VNum x => negb (PrimFloat.is_zero x || PrimFloat.is_nan x)
  | VStr s => match s with [] => false | _ => true end
  | VArr _ | VObj _ => true
  end.

(** [a ?? b] *)
Definition nullish_coalesce (a b : value) : value :=
  if is_nullish a then b else a.

(** Property read [v.k], for a name [k] that no built-in prototype defines
    (the validator reads [supplierVat], [customerVat], [date], [total],
    [vat], [currency] and [invoiceId] only): an own property of an object,
    [undefined] on anything else, and a [TypeError] on [null] and
    [undefined]. *)
Definition Get (v : value) (k : string) : completion value :=
  match v with
  | VUndefined | VNull => Throw TypeError
  | VObj props =>
      match own_property props (lit k) with
      | Some x => Normal x
      | None => Normal VUndefined
      end
  | _ => Normal VUndefined
  end.

(** Optional chaining [v?.k]: [undefined] when [v] is [null] or
    [undefined]. *)
Definition OptGet (v : value) (k : string) : value :=
  match Get v k with
  | Normal x => x
  | Throw _ => VUndefined
  end.

(** ** Numbers *)

Open Scope float_scope.

Definition float_of_Z (z : Z) : float :=
  match z with
  | Z0 => 0
  | Zpos _ => PrimFloat.of_uint63 (Uint63.of_Z z)
  | Zneg p => - PrimFloat.of_uint63 (Uint63.of_Z (Zpos p))
  end.

(** [Math.round]: a number that is not finite or is integral is returned as
    it is; otherwise the closest integer, the one nearer to +infinity on a
    tie, and [-0] for [-0.5 <= x < 0].  A finite [x] is [m * 2^e]; with
    [e < 0] the result is [floor (x + 1/2)], below 2^53 in magnitude. *)
Definition Math_round (x : float) : float :=
  match Prim2SF x with
  | S754_finite s m e =>
      if (0 <=? e)%Z then x
      else
        let d := (2 ^ (- e))%Z in
        if s then
          let q := ((d - 2 * Zpos m) / (2 * d))%Z in
          if (q =? 0)%Z then neg_zero else float_of_Z q
        else float_of_Z ((2 * Zpos m + d) / (2 * d))%Z
  | _ => x
  end.

Definition Math_abs (x : float) : float := PrimFloat.abs x.

Close Scope float_scope.

(** *** Number::toString, radix 10

    For a finite [x > 0], integers [n], [k], [s] are chosen with [k >= 1],
    [10^(k-1) <= s < 10^k], [s * 10^(n-k)] a real that converts to [x], and
    [k] as small as possible; of several [s] the one whose value is closest
    to [x] (the even one on a tie).  The reals that convert to [x = m * 2^e]
    are those between the midpoints to its two neighbours, the midpoints
    included when [m] is even. *)

Definition Qpow (b : Z) (z : Z) : Q := Qpower (inject_Z b) z.

Definition Q_of_finite (m : positive) (e : Z) : Q := inject_Z (Zpos m) * Qpow 2 e.

Definition rounding_interval (m : positive) (e : Z) : Q * Q :=
  let lo :=
    if ((Zpos m =? 2 ^ 52) && (-1074 <? e))%Z
    then inject_Z (4 * Zpos m - 1) * Qpow 2 (e - 2)
    else inject_Z (2 * Zpos m - 1) * Qpow 2 (e - 1) in
  let hi := inject_Z (2 * Zpos m + 1) * Qpow 2 (e - 1) in
  (lo, hi).

Definition Qltb (a b : Q) : bool := negb (Qle_bool b a).

Definition converts_to (m : positive) (e : Z) (v : Q) : bool :=
  let (lo, hi) := rounding_interval m e in
  if Z.even (Zpos m) then Qle_bool lo v && Qle_bool v hi
  else Qltb lo v && Qltb v hi.

(** The [n] with [10^(n-1) <= x < 10^n], searched upwards from an [n] that
    is not above it. *)
Fixpoint decimal_exponent (fuel : nat) (x : Q) (n : Z) : Z :=
  match fuel with
  | O => n
  | S fuel' => if Qltb x (Qpow 10 n) then n else decimal_exponent fuel' x (n + 1)
  end.

(** The [k]-digit candidates around [x]: [s] and [s + 1] for
    [s = floor (x / 10^(n-k))]; the result is the [s] kept, if one converts
    to [x]. *)
Definition digits_at (m : positive) (e : Z) (n k : Z) : option Z :=
  let x := Q_of_finite m e in
  let scale := Qpow 10 (n - k) in
  let s := Qfloor (x / scale) in
  let below := inject_Z s * scale in
  let above := inject_Z (s + 1) * scale in
  match converts_to m e below, converts_to m e above with
  | false, false => None
  | true, false => Some s
  | false, true => Some (s + 1)%Z
  | true, true =>
      match (x - below) ?= (above - x) with
      | Lt => Some s
      | Gt => Some (s + 1)%Z
      | Eq => Some (if Z.even s then s else s + 1)%Z
      end
  end.

Fixpoint shortest_digits (fuel : nat) (m : positive) (e : Z) (n k : Z) : Z * Z * Z :=
  match fuel with
  | O => (n, k, Qfloor (Q_of_finite m e / Qpow 10 (n - k)))
  | S fuel' =>
      match digits_at m e n k with
      | Some s => if (s =? 10 ^ k)%Z then (n + 1, k, 10 ^ (k - 1))%Z else (n, k, s)
      | None => shortest_digits fuel' m e n (k + 1)
      end
  end.

(** [(n, k, s)] of a finite positive number [m * 2^e].  The search for [n]
    starts below [log10 (m * 2^e)], from [log2 m + e <= log2 (m * 2^e)] and
    [log10 2 < 0.30103]. *)
Definition decimal_of_finite (m : positive) (e : Z) : Z * Z * Z :=
  let start := ((Z.log2 (Zpos m) + e) * 30103 / 100000 - 1)%Z in
  let n := decimal_exponent 640 (Q_of_finite m e) start in
  shortest_digits 17 m e n 1.

Local Open Scope string_scope.

Definition digits_of (z : Z) : string :=
  NilZero.string_of_uint (N.to_uint (Z.to_N z)).

Fixpoint zeros (n : nat) : string :=
  match n with
  | O => EmptyString
  | S n' => String "0"%char (zeros n')
  end.

Definition format_decimal (n k s : Z) : string :=
  let ds := digits_of s in
  if ((-5 <=? n) && (n <=? 21))%Z then
    if (k <=? n)%Z then ds ++ zeros (Z.to_nat (n - k))
    else if (0 <? n)%Z then
      substring 0 (Z.to_nat n) ds ++ "." ++ substring (Z.to_nat n) (Z.to_nat (k - n)) ds
    else "0." ++ zeros (Z.to_nat (- n)) ++ ds
  else
    let c := if (0 <? n - 1)%Z then "+" else "-" in
    let ex := digits_of (Z.abs (n - 1)) in
    if (k =? 1)%Z then ds ++ "e" ++ c ++ ex
    else substring 0 1 ds ++ "." ++ substring 1 (Z.to_nat (k - 1)) ds ++ "e" ++ c ++ ex.

Definition Number_toString (x : float) : string :=
  match Prim2SF x with
  | S754_nan => "NaN"
  | S754_zero _ => "0"
  | S754_infinity s => if s then "-Infinity" else "Infinity"
  | S754_finite sgn m e =>
      let '(n, k, s) := decimal_of_finite m e in
      (if sgn then "-" else "") ++ format_decimal n k s
  end.

Arguments Number_toString : simpl never.

(** ** Conversions and built-ins on strings *)

Definition has_own_property (props : list (jsstring * value)) (k : string) : bool :=
  match own_property props (lit k) with Some _ => true | None => false end.

(** ToString, as [String(v)] applies it.  An array is joined with [","], its
    [null] and [undefined] elements giving the empty string.  A plain object
    gives ["[object Object]"] through [Object.prototype.toString]; when the
    object has an own [toString] property (a parsed value, never callable) no
    method returns a primitive and a [TypeError] is thrown. *)
Fixpoint ToString (v : value) : completion jsstring :=
  match v with
  | VUndefined => Normal (lit "undefined")
  | VNull => Normal (lit "null")
  | VBool b => Normal (lit (if b then "true" else "false"))
  | VNum x => Normal (lit (Number_toString x))
  | VStr s => Normal s
  | VArr elems =>
      (fix join (xs : list value) : completion jsstring :=
         match xs with
         | [] => Normal []
         | x :: rest =>
             let* s := (if is_nullish x then Normal [] else ToString x) in
             match rest with
             | [] => Normal s
             | _ :: _ => let* t := join rest in Normal (s ++ lit "," ++ t)%list%list
             end
         end) elems
  | VObj props =>
      if has_own_property props "toString" then Throw TypeError
      else Normal (lit "[object Object]")
  end.

(** No object with an own [toString] property is met on the way of
    [ToString v]. *)
Fixpoint convertible (v : value) : bool :=
  match v with
  | VArr elems => forallb convertible elems
  | VObj props => negb (has_own_property props "toString")
  | _ => true
  end.

(** [\d]: an ASCII decimal digit. *)
Definition is_digit (c : code_unit) : bool := ((48 <=? c) && (c <=? 57))%N.

(** [/^\d{n}$/.test(s)] *)
Fixpoint test_digits (n : nat) (s : jsstring) : bool :=
  match n, s with
  | O, [] => true
  | S n', c :: rest => is_digit c && test_digits n' rest
  | _, _ => false
  end.

(** [xs.includes(v)] for an array [xs] of strings: SameValueZero holds
    between a string and [v] when [v] is the same string. *)
Definition includes (xs : list jsstring) (v : value) : bool :=
  match v with
  | VStr s => existsb (jsstring_eqb s) xs
  | _ => false
  end.

(** [xs.push(x)] *)
Definition push {A} (xs : list A) (x : A) : list A := (xs ++ [x])%list.

(** [xs.reduce(f, init)] *)
Definition reduce {A B} (f : B -> A -> B) (init : B) (xs : list A) : B :=
  fold_left f xs init.

(** ** Splitting and trimming *)

(** WhiteSpace and LineTerminator code units, which [trim] strips. *)
Definition is_white_space (c : code_unit) : bool :=
  (existsb (N.eqb c)
     [9; 10; 11; 12; 13; 32; 160; 5760; 8232; 8233; 8239; 8287; 12288; 65279]
   || ((8192 <=? c) && (c <=? 8202)))%N.

Fixpoint trimStart (s : jsstring) : jsstring :=
  match s with
  | [] => []
  | c :: rest => if is_white_space c then trimStart rest else s
  end.

(** [s.trim()] *)
Definition trim (s : jsstring) : jsstring := rev (trimStart (rev (trimStart s))).

(** The code unit [c] put in front of the first piece. *)
Definition extend_first (c : code_unit) (pieces : list jsstring) : list jsstring :=
  match pieces with
  | [] => [[c]]
  | piece :: rest => (c :: piece) :: rest
  end.

(** [s.split(sep)] for a separator of one code unit; the empty string
    gives one empty piece. *)
Fixpoint split_on (sep : code_unit) (s : jsstring) : list jsstring :=
  match s with
  | [] => [[]]
  | c :: rest =>
      if (c =? sep)%N then [] :: split_on sep rest
      else extend_first c (split_on sep rest)
  end.

(** [s.split(/\r?\n/)]: a line feed, with the carriage return just before
    it when there is one, separates two pieces; a carriage return alone does
    not. *)
Fixpoint split_lines (s : jsstring) : list jsstring :=
  match s with
  | [] => [[]]
  | c :: rest =>
      match rest with
      | c2 :: rest2 =>
          if ((c =? 13) && (c2 =? 10))%N then [] :: split_lines rest2
          else if (c =? 10)%N then [] :: split_lines rest
          else extend_first c (split_lines rest)
      | [] => if (c =? 10)%N then [[]; []] else [[c]]
      end
  end.

(** ** Decimal strings as numbers *)

(** One or more digits: the digits in front are consumed, the rest is
    returned. *)
Fixpoint skip_digits (s : jsstring) : jsstring :=
  match s with
  | c :: rest => if is_digit c then skip_digits rest else s
  | [] => []
  end.

Definition starts_with_digit (s : jsstring) : bool :=
  match s with
  | c :: _ => is_digit c
  | [] => false
  end.

(** [/^\d+(\.\d+)?$/.test(s)] *)
Definition test_decimal (s : jsstring) : bool :=
  starts_with_digit s &&
  match skip_digits s with
  | [] => true
  | c :: frac =>
      (c =? 46)%N && starts_with_digit frac &&
      match skip_digits frac with [] => true | _ :: _ => false end
  end.

Definition digits_value (s : jsstring) : Z :=
  fold_left (fun acc c => 10 * acc + (Z.of_N c - 48))%Z s 0%Z.

(** The mathematical value of a string [digits] or [digits.digits]. *)
Definition decimal_value (s : jsstring) : Q :=
  match split_on 46%N s with
  | [whole] => inject_Z (digits_value whole)
  | whole :: frac :: _ =>
      inject_Z (digits_value (whole ++ frac)%list) * Qpow 10 (- Z.of_nat (List.length frac))
  | [] => 0
  end.

Definition round_half_even (x : Q) : Z :=
  let f := Qfloor x in
  match Qcompare (x - inject_Z f)%Q (1 # 2)%Q with
  | Lt => f
  | Gt => (f + 1)%Z
  | Eq => if Z.even f then f else (f + 1)%Z
  end.

(** The exponent [e >= -1074] with [q / 2^e < 2^53], and [2^52 <= q / 2^e]
    unless [e = -1074]; searched upwards from an [e] that is not above it. *)
Fixpoint binary_exponent (fuel : nat) (q : Q) (e : Z) : Z :=
  match fuel with
  | O => e
  | S fuel' =>
      if Qltb (q / Qpow 2 e) (inject_Z (2 ^ 53)) then e
      else binary_exponent fuel' q (e + 1)
  end.

(** The number closest to a real [q >= 0], the one with an even significand
    on a tie, and [Infinity] from [2^1024 - 2^970] on. *)
Definition round_to_double (q : Q) : float :=
  if Qle_bool q 0 then 0%float
  else
    let start :=
      Z.max (-1074) (Z.log2 (Qnum q) - Z.log2 (Zpos (Qden q)) - 54) in
    let e := binary_exponent 8 q start in
    let m := round_half_even (q / Qpow 2 e) in
    if (971 <? e)%Z || ((e =? 971)%Z && (m =? 2 ^ 53)%Z) then infinity
    else Z.ldexp (float_of_Z m) e.

(** [Number(s)] for a string [s] that [test_decimal] accepts.  (For more
    than 20 significant digits the language lets an engine round a
    truncation of the digits instead; the engines round the exact value.) *)
Definition StringToNumber (s : jsstring) : float := round_to_double (decimal_value s).

(** [o[k] = v] on a plain object, for a primitive [v]: the key [__proto__]
    reaches the setter of [Object.prototype], which ignores a primitive. *)
Definition assign (props : list (jsstring * value)) (k : jsstring) (v : value)
  : list (jsstring * value) :=
  if jsstring_eqb k (lit "__proto__") then props else set_property props k v.

End JS.

(* ================================================================== *)
(** * The validator *)
(* ================================================================== *)

Module App.
Import JS.

Local Open Scope string_scope.

Inductive Severity : Type := LOW | MED | HIGH.
Inductive Level : Type := GREEN | YELLOW | RED.

Definition Severity_eqb (a b : Severity) : bool :=
  match a, b with
  | LOW, LOW | MED, MED | HIGH, HIGH => true
  | _, _ => false
  end.

(** [interface Issue]; the field [fix] is [fix_] here.  [code], [message]
    and [fix] are constant texts of the source, never inspected. *)
Record Issue : Type := mkIssue {
  code : string;
  severity : Severity;
  message : string;
  fix_ : string
}.

(** What [extractMeta] returns. *)
Record Meta : Type := mkMeta {
  supplierVat : value;
  customerVat : value;
  total : value;
  vat : value;
  date : value;
  currency : value
}.

(** [interface Report]; [score] is a small integer, on which the arithmetic
    of numbers is exact. *)
Record Report : Type := mkReport {
  level : Level;
  score : Z;
  issues : list Issue;
  meta : Meta
}.

Definition req (code : string) (severity : Severity) (message fix_ : string) : Issue :=
  {| code := code; severity := severity; message := message; fix_ := fix_ |}.

Definition extractMeta (inv : value) : Meta :=
  {| supplierVat := nullish_coalesce (OptGet inv "supplierVat") (VStr (lit ""));
     customerVat := nullish_coalesce (OptGet inv "customerVat") (VStr (lit ""));
     total := nullish_coalesce (OptGet inv "total") (VStr (lit ""));
     vat := nullish_coalesce (OptGet inv "vat") (VStr (lit ""));
     date := nullish_coalesce (OptGet inv "date") (VStr (lit ""));
     currency := nullish_coalesce (OptGet inv "currency") (VStr (lit "ILS")) |}.

Definition vatRate : float := 0.17%float.
Definition supportedCurrencies : list jsstring := [lit "ILS"; lit "USD"; lit "EUR"].

(** The double quote inside the texts. *)
Definition dq : string := String (ascii_of_nat 34) EmptyString.

Definition SUPPLIER_VAT : Issue :=
  req "SUPPLIER_VAT" HIGH "חסר מספר עוסק של הספק" "הוסף מספר עוסק (9 ספרות) בשדה supplierVat".
Definition CUSTOMER_VAT : Issue :=
  req "CUSTOMER_VAT" MED "חסר מספר עוסק של הלקוח" "הוסף מספר עוסק בשדה customerVat".
Definition DATE : Issue :=
  req "DATE" MED "חסר תאריך חשבונית" "הוסף תאריך בפורמט YYYY-MM-DD".
Definition TOTAL : Issue :=
  req "TOTAL" HIGH "חסר סכום סופי (total)" "הוסף סכום כולל".
Definition VAT : Issue :=
  req "VAT" MED ("חסר סכום מע" ++ dq ++ "מ (vat)") ("הוסף סכום מע" ++ dq ++ "מ").
Definition SUPPLIER_VAT_FMT : Issue :=
  req "SUPPLIER_VAT_FMT" HIGH "פורמט עוסק ספק לא תקין" "ודא 9 ספרות ללא מקפים".
Definition CUSTOMER_VAT_FMT : Issue :=
  req "CUSTOMER_VAT_FMT" MED "פורמט עוסק לקוח לא תקין" "ודא 9 ספרות ללא מקפים".
Definition VAT_MISMATCH : Issue :=
  req "VAT_MISMATCH" MED
      ("מע" ++ dq ++ "מ לא תואם את שיעור " ++ Number_toString (vatRate * 100)%float ++ "%")
      "בדוק חישובי ביניים/עגול סכומים".
Definition SUBTOTAL_NEG : Issue :=
  req "SUBTOTAL_NEG" HIGH ("סכום לפני מע" ++ dq ++ "מ לא תקין (שלילי/אפס)")
      "בדוק שורת פריטים וחישוב סיכומים".
Definition CURRENCY_UNSUPPORTED : Issue :=
  req "CURRENCY_UNSUPPORTED" LOW "מטבע לא נתמך ב-MVP" "השתמש ב-ILS/USD/EUR".
Definition INVOICE_ID_WEAK : Issue :=
  req "INVOICE_ID_WEAK" LOW "מזהה חשבונית חלש/קצר מדי" "הגדל את אורך המזהה למינימום 6 תווים".

(** The penalty of one finding in the [reduce] of the score. *)
Definition penalty_step (acc : Z) (it : Issue) : Z :=
  (acc + (if Severity_eqb (severity it) HIGH then 25
          else if Severity_eqb (severity it) MED then 12 else 5))%Z.

(** The arithmetic block, run when [total] and [vat] are both numbers. *)
Definition arithmetic_checks (issues : list Issue) (total vat : float) : list Issue :=
  let subtotal := (total - vat)%float in
  let expectedVat := (Math_round (subtotal * vatRate * 100) / 100)%float in
  let diff := Math_abs (expectedVat - vat)%float in
  let issues := if (1 <? diff)%float then push issues VAT_MISMATCH else issues in
  let issues := if (subtotal <=? 0)%float then push issues SUBTOTAL_NEG else issues in
  issues.

Definition validateInvoiceLocally (inv : value) : completion Report :=
  let issues : list Issue := [] in
  let issues :=
    if negb (ToBoolean (OptGet inv "supplierVat")) then push issues SUPPLIER_VAT else issues in
  let issues :=
    if negb (ToBoolean (OptGet inv "customerVat")) then push issues CUSTOMER_VAT else issues in
  let issues :=
    if negb (ToBoolean (OptGet inv "date")) then push issues DATE else issues in
  let issues :=
    if is_nullish (OptGet inv "total") then push issues TOTAL else issues in
  let issues :=
    if is_nullish (OptGet inv "vat") then push issues VAT else issues in
  let* bad :=
    (if ToBoolean (OptGet inv "supplierVat") then
       let* v := Get inv "supplierVat" in
       let* s := ToString v in
       Normal (negb (test_digits 9 s))
     else Normal false) in
  let issues := if bad then push issues SUPPLIER_VAT_FMT else issues in
  let* bad :=
    (if ToBoolean (OptGet inv "customerVat") then
       let* v := Get inv "customerVat" in
       let* s := ToString v in
       Normal (negb (test_digits 9 s))
     else Normal false) in
  let issues := if bad then push issues CUSTOMER_VAT_FMT else issues in
  let* t := Get inv "total" in
  let* issues :=
    (match t with
     | VNum total =>
         let* v := Get inv "vat" in
         match v with
         | VNum vat => Normal (arithmetic_checks issues total vat)
         | _ => Normal issues
         end
     | _ => Normal issues
     end) in
  let* bad :=
    (if ToBoolean (OptGet inv "currency") then
       let* c := Get inv "currency" in
       Normal (negb (includes supportedCurrencies c))
     else Normal false) in
  let issues := if bad then push issues CURRENCY_UNSUPPORTED else issues in
  let* bad :=
    (if ToBoolean (OptGet inv "invoiceId") then
       let* v := Get inv "invoiceId" in
       let* s := ToString v in
       Normal (List.length s <? 3)%nat
     else Normal false) in
  let issues := if bad then push issues INVOICE_ID_WEAK else issues in
  let score := (100 - reduce penalty_step 0 issues)%Z in
  let score := Z.max 0 (Z.min 100 score) in
  let level :=
    if (85 <=? score)%Z then GREEN else if (60 <=? score)%Z then YELLOW else RED in
  Normal {| level := level; score := score; issues := issues; meta := extractMeta inv |}.

Definition sampleInvoice : value :=
  VObj [ (lit "supplierVat", VStr (lit "512345679"));
         (lit "customerVat", VStr (lit "598765431"));
         (lit "invoiceId", VStr (lit "INV-2025-00123"));
         (lit "date", VStr (lit "2025-09-12"));
         (lit "currency", VStr (lit "ILS"));
         (lit "vat", VNum 170);
         (lit "total", VNum 1000) ].

(** The placeholder ['—'], one code unit (U+2014). *)
Definition dash : jsstring := [8212%N].

Definition fmt (v : value) : completion jsstring :=
  if (match v with VStr [] => true | _ => false end) || is_nullish v
  then Normal dash
  else ToString v.

(** [a || '—'] *)
Definition or_dash (a : value) : value :=
  if ToBoolean a then a else VStr dash.

(** The six [dd] of [InvoicePreview], in the order of the list: supplier,
    customer, date, currency, VAT, total. *)
Definition InvoicePreview_dd (data : value) : completion (list value) :=
  let meta := extractMeta data in
  let* v := fmt (vat meta) in
  let* t := fmt (total meta) in
  Normal [ or_dash (supplierVat meta); or_dash (customerVat meta);
           or_dash (date meta); or_dash (currency meta); VStr v; VStr t ].

(** The value stored for the cell [row[i]], [None] standing for an index
    past the end of the row:
    [/^\d+(\.\d+)?$/.test(row[i]||'') ? Number(row[i]) : row[i]||'']. *)
Definition cell_value (cell : option jsstring) : value :=
  let s := match cell with Some s => s | None => [] end in
  if test_decimal s then VNum (StringToNumber s) else VStr s.

(** [headers.forEach((h, i) => { obj[h] = ... })], from the index [i] on. *)
Fixpoint assign_cells (obj : list (jsstring * value)) (headers : list jsstring)
    (i : nat) (row : list jsstring) : list (jsstring * value) :=
  match headers with
  | [] => obj
  | h :: rest => assign_cells (assign obj h (cell_value (nth_error row i))) rest (S i) row
  end.

(** [text.trim().split(/\r?\n/)]: the header line and the rows. *)
Definition csv_lines (text : jsstring) : list jsstring := split_lines (trim text).

Definition csv_headers (text : jsstring) : list jsstring :=
  map trim (split_on 44%N (hd [] (csv_lines text))).

(** [rows[0]?.split(',').map(s => s.trim()) ?? []] *)
Definition csv_row (text : jsstring) : list jsstring :=
  match tl (csv_lines text) with
  | first :: _ => map trim (split_on 44%N first)
  | [] => []
  end.

Definition csvToInvoice (text : jsstring) : value :=
  VObj (assign_cells [] (csv_headers text) 0 (csv_row text)).

End App.

(* ================================================================== *)
(** * The vocabulary of the specification *)
(* ================================================================== *)

Module Spec.
Import JS App.

Local Open Scope string_scope.

(** The codes and severities of a report's findings, in order. *)
Definition findings (r : Report) : list (string * Severity) :=
  map (fun i => (code i, severity i)) (issues r).

Definition has_code (c : string) (l : list Issue) : bool :=
  existsb (fun i => String.eqb c (code i)) l.

Definition has_finding (c : string) (s : Severity) (l : list Issue) : bool :=
  existsb (fun i => String.eqb c (code i) && Severity_eqb s (severity i)) l.

(** A finding with code [c] is among the issues of the report. *)
Definition fires (c : string) (r : Report) : bool := has_code c (issues r).

(** A finding with code [c] and severity [s] is among the issues of the
    report. *)
Definition produced (c : string) (s : Severity) (r : Report) : bool :=
  has_finding c s (issues r).

(** The penalty table: HIGH 25, MEDIUM 12, LOW 5. *)
Definition severity_penalty (s : Severity) : Z :=
  match s with
  | HIGH => 25
  | MED => 12
  | LOW => 5
  end.

(** The sum of the penalties of the findings. *)
Definition total_penalty (l : list Issue) : Z :=
  fold_right Z.add 0%Z (map (fun i => severity_penalty (severity i)) l).

Definition clamp (lo hi x : Z) : Z := Z.max lo (Z.min hi x).

(** The three bands of the classification. *)
Definition classify (score : Z) : Level :=
  if (score <? 60)%Z then RED else if (score <? 85)%Z then YELLOW else GREEN.

(** *** The arithmetic consistency check *)

(** The integer nearest to a number, the one towards +infinity on a tie.  A
    finite number is [m * 2^e] up to its sign: with [e >= 0] it is an integer
    already; otherwise the integer is [floor (x + 1/2)] of its exact value
    [x], and has the sign of the number when it is zero. *)
Definition nearest_integer (x : float) : float :=
  match Prim2SF x with
  | S754_finite s m e =>
      if (0 <=? e)%Z then x
      else
        let q := Qmult (inject_Z (if s then Zneg m else Zpos m)) (Qpow 2 e) in
        let n := Qfloor (Qplus q (1 # 2)) in
        if (n =? 0)%Z then (if s then neg_zero else 0%float) else float_of_Z n
  | _ => x
  end.

(** The check in the arithmetic of the record's numbers: every [-], [*] and
    [/] below is the binary64 operation, rounded to the nearest number, and
    [0.17] is the nearest number to 17/100. *)

(** Rounding to two decimal places: multiply by 100, round to the nearest
    integer, divide by 100. *)
Definition round2 (x : float) : float := (nearest_integer (x * 100) / 100)%float.

Definition subtotal_of (total vat : float) : float := (total - vat)%float.

Definition expectedVat_of (total vat : float) : float :=
  round2 (subtotal_of total vat * 0.17)%float.

(** [|expectedVat - vat| > 1] *)
Definition vat_mismatch (total vat : float) : bool :=
  (1 <? PrimFloat.abs (expectedVat_of total vat - vat))%float.

(** [subtotal <= 0] *)
Definition subtotal_nonpositive (total vat : float) : bool :=
  (subtotal_of total vat <=? 0)%float.

(** The same check in exact arithmetic, on amounts that are rationals:
    [expectedVat] is [(total - vat) * 0.17] rounded to two decimal places,
    and the finding is due when [|expectedVat - vat| > 1]. *)
Definition exact_expectedVat (total vat : Q) : Q :=
  Qdiv
    (inject_Z
       (Qfloor (Qplus (Qmult (Qmult (Qminus total vat) (17 # 100)) (100 # 1)) (1 # 2))))
    (100 # 1).

Definition exact_vat_mismatch (total vat : Q) : bool :=
  negb (Qle_bool (Qabs (Qminus (exact_expectedVat total vat) vat)) (1 # 1)).

(** The exact value of a finite number. *)
Definition exact_value (x : float) : option Q :=
  match Prim2SF x with
  | S754_zero _ => Some (0 # 1)
  | S754_finite s m e => Some (Qmult (inject_Z (if s then Zneg m else Zpos m)) (Qpow 2 e))
  | _ => None
  end.

(** Exactly nine ASCII decimal digits. *)
Definition nine_ascii_digits (s : jsstring) : bool :=
  (List.length s =? 9)%nat && forallb (fun c => (48 <=? c) && (c <=? 57))%N s.

(** *** The rule battery as a list of independent checks *)

(** The finding of a check that fails, nothing of one that passes. *)
Definition when (b : bool) (i : Issue) : list Issue := if b then [i] else [].

(** The nine-digit check on a VAT number [v], run when [v] is truthy. *)
Definition format_check (v : value) : completion bool :=
  if ToBoolean v then
    let* s := ToString v in Normal (negb (test_digits 9 s))
  else Normal false.

(** The length check on an invoice id [v], run when [v] is truthy. *)
Definition id_check (v : value) : completion bool :=
  if ToBoolean v then
    let* s := ToString v in Normal (List.length s <? 3)%nat
  else Normal false.

(** The two arithmetic checks on the values [t] of [total] and [v] of
    [vat], run when both are numbers. *)
Definition mismatch_check (t v : value) : bool :=
  match t, v with
  | VNum total, VNum vat => vat_mismatch total vat
  | _, _ => false
  end.

Definition subtotal_check (t v : value) : bool :=
  match t, v with
  | VNum total, VNum vat => subtotal_nonpositive total vat
  | _, _ => false
  end.

Definition arithmetic_findings (t v : value) : list Issue :=
  (when (mismatch_check t v) VAT_MISMATCH ++ when (subtotal_check t v) SUBTOTAL_NEG)%list.

Definition currency_check (c : value) : bool :=
  ToBoolean c && negb (includes supportedCurrencies c).

(** The findings of a record, given the outcomes [bs], [bc], [bi] of the two
    format checks and of the id check. *)
Definition battery (inv : value) (bs bc bi : bool) : list Issue :=
  (when (negb (ToBoolean (OptGet inv "supplierVat"))) SUPPLIER_VAT ++
   when (negb (ToBoolean (OptGet inv "customerVat"))) CUSTOMER_VAT ++
   when (negb (ToBoolean (OptGet inv "date"))) DATE ++
   when (is_nullish (OptGet inv "total")) TOTAL ++
   when (is_nullish (OptGet inv "vat")) VAT ++
   when bs SUPPLIER_VAT_FMT ++
   when bc CUSTOMER_VAT_FMT ++
   arithmetic_findings (OptGet inv "total") (OptGet inv "vat") ++
   when (currency_check (OptGet inv "currency")) CURRENCY_UNSUPPORTED ++
   when bi INVOICE_ID_WEAK)%list.

Definition compose (inv : value) (l : list Issue) : Report :=
  let score := clamp 0 100 (100 - total_penalty l) in
  {| level := classify score; score := score; issues := l; meta := extractMeta inv |}.

(** A value read by a check that converts it with [String]: the check is
    skipped when the value is falsy, and the conversion must succeed
    otherwise. *)
Definition survives (v : value) : bool := negb (ToBoolean v) || convertible v.

(** *** Fields and their checks *)

(** The six tracked fields of the normalized metadata: name, reader,
    fallback. *)
Definition tracked : list (string * (Meta -> value) * value) :=
  [ ("supplierVat", supplierVat, VStr (lit ""));
    ("customerVat", customerVat, VStr (lit ""));
    ("date", date, VStr (lit ""));
    ("vat", vat, VStr (lit ""));
    ("total", total, VStr (lit ""));
    ("currency", currency, VStr (lit "ILS")) ].

(** The record has a field [k], whose value [v] is neither [null] nor
    [undefined]. *)
Definition present (inv : value) (k : string) (v : value) : Prop :=
  exists props,
    inv = VObj props /\ own_property props (lit k) = Some v /\ is_nullish v = false.

(** The checks that read a field, by code. *)
Definition checks_of (field : string) : list string :=
  if field =? "supplierVat" then ["SUPPLIER_VAT"; "SUPPLIER_VAT_FMT"]
  else if field =? "customerVat" then ["CUSTOMER_VAT"; "CUSTOMER_VAT_FMT"]
  else if field =? "date" then ["DATE"]
  else if field =? "total" then ["TOTAL"; "VAT_MISMATCH"; "SUBTOTAL_NEG"]
  else if field =? "vat" then ["VAT"; "VAT_MISMATCH"; "SUBTOTAL_NEG"]
  else if field =? "currency" then ["CURRENCY_UNSUPPORTED"]
  else if field =? "invoiceId" then ["INVOICE_ID_WEAK"]
  else [].

(** The situations in which the score drops although the failing check [c]
    was made to pass: with TOTAL fixed, both arithmetic checks fail
    afterwards; with VAT fixed, SUBTOTAL_NEG fails afterwards; with
    VAT_MISMATCH fixed and SUBTOTAL_NEG passing before, SUBTOTAL_NEG or TOTAL
    fails afterwards. *)
Definition lowers (c : string) (r r' : Report) : bool :=
  if c =? "TOTAL" then fires "VAT_MISMATCH" r' && fires "SUBTOTAL_NEG" r'
  else if c =? "VAT" then fires "SUBTOTAL_NEG" r'
  else if c =? "VAT_MISMATCH" then
    negb (fires "SUBTOTAL_NEG" r) && (fires "SUBTOTAL_NEG" r' || fires "TOTAL" r')
  else false.

(** The canonical sample with its [total] left out. *)
Definition sampleWithoutTotal : list (jsstring * value) :=
  [ (lit "supplierVat", VStr (lit "512345679"));
    (lit "customerVat", VStr (lit "598765431"));
    (lit "invoiceId", VStr (lit "INV-2025-00123"));
    (lit "date", VStr (lit "2025-09-12"));
    (lit "currency", VStr (lit "ILS"));
    (lit "vat", VNum 170) ].

(** *** The rest of the file: decoding, display, and the battery as a whole *)

(** The codes of the battery, in the order of the checks. *)
Definition rule_order : list string :=
  [ "SUPPLIER_VAT"; "CUSTOMER_VAT"; "DATE"; "TOTAL"; "VAT"; "SUPPLIER_VAT_FMT";
    "CUSTOMER_VAT_FMT"; "VAT_MISMATCH"; "SUBTOTAL_NEG"; "CURRENCY_UNSUPPORTED";
    "INVOICE_ID_WEAK" ].

(** The seven field names that the validator and the normalizer read. *)
Definition recognized : list string :=
  [ "supplierVat"; "customerVat"; "date"; "total"; "vat"; "currency"; "invoiceId" ].

(** A finding of severity HIGH is among the issues. *)
Definition has_high (r : Report) : bool :=
  existsb (fun i => Severity_eqb (severity i) HIGH) (issues r).

(** The own property [k] of a decoded CSV record. *)
Definition csv_field (text : jsstring) (k : jsstring) : option value :=
  match csvToInvoice text with
  | VObj props => own_property props k
  | _ => None
  end.

(** A number, or a string that is not of the form [digits] or
    [digits.digits]. *)
Definition number_or_text (v : value) : bool :=
  match v with
  | VNum _ => true
  | VStr s => negb (test_decimal s)
  | _ => false
  end.

(** The cell under the last of the columns, from the index [i] on, whose
    header is [k]. *)
Fixpoint last_cell (headers : list jsstring) (i : nat) (row : list jsstring)
    (k : jsstring) : option value :=
  match headers with
  | [] => None
  | h :: rest =>
      match last_cell rest (S i) row k with
      | Some v => Some v
      | None => if jsstring_eqb h k then Some (cell_value (nth_error row i)) else None
      end
  end.

(** The CSV text of the third dev test. *)
Definition testCsv : jsstring :=
  (lit "supplierVat,customerVat,total,vat,date,currency,invoiceId" ++ [10%N] ++
   lit "512345679,598765431,1000,170,2025-09-12,ILS,INV-2025-00123")%list.

End Spec.

(* ================================================================== *)
(** * Properties *)
(* ================================================================== *)

Import JS App Spec.
Local Open Scope Z_scope.
Local Open Scope string_scope.

(** ** The built-ins on known values *)

Example Math_round_values :
  map Math_round
      [2.5; -2.5; 0.49999999999999994; -0.2; 14110.000000000002; 4503599627370495.5]%float
  = [3; -2; 0; neg_zero; 14110; 4503599627370496]%float.
Proof. vm_compute. reflexivity. Qed.

Example Number_toString_values :
  map Number_toString
      [0.1 + 0.2; 1e21; 1e-7; 0.000001; 123456789; 5e-324;
       1.7976931348623157e308; -1.5; neg_zero; nan; vatRate * 100]%float
  = ["0.30000000000000004"; "1e+21"; "1e-7"; "0.000001"; "123456789"; "5e-324";
     "1.7976931348623157e+308"; "-1.5"; "0"; "NaN"; "17"].
Proof. vm_compute. reflexivity. Qed.

Example ToString_values :
  ToString (VArr [VNum 1; VNull; VStr (lit "a"); VArr [VNum 2; VNum 3]])
  = Normal (lit "1,,a,2,3") /\
  ToString (VObj [(lit "total", VNum 1)]) = Normal (lit "[object Object]") /\
  ToString (VObj [(lit "toString", VNum 1)]) = Throw TypeError.
Proof. repeat split; vm_compute; reflexivity. Qed.

(** ** The validator as a battery of checks *)

Lemma Get_OptGet inv k :
  is_nullish inv = false -> Get inv k = Normal (OptGet inv k).
Proof.
  unfold OptGet. destruct inv; cbn; try discriminate; intros _; try reflexivity.
  destruct (own_property props (lit k)); reflexivity.
Qed.

Lemma push_when (l : list Issue) (b : bool) (i : Issue) :
  (if b then push l i else l) = (l ++ when b i)%list.
Proof. destruct b; cbn; [reflexivity | now rewrite app_nil_r]. Qed.

(** *** Rounding to the nearest integer *)

Lemma Qpow_2_neg (p : positive) :
  Qpow 2 (Zneg p) == 1 # (2 ^ p)%positive.
Proof.
  unfold Qpow. change (inject_Z 2) with (Zpos 2 # 1).
  rewrite Qpower_decomp_neg_pos. rewrite Z.pow_1_l by lia. reflexivity.
Qed.

Lemma Qfloor_half_up (z : Z) (p : positive) :
  Qfloor (inject_Z z * Qpow 2 (Zneg p) + (1 # 2)) =
  ((2 * z + 2 ^ Zpos p) / (2 * 2 ^ Zpos p))%Z.
Proof.
  rewrite (Qfloor_comp _ ((2 * z + Zpos (2 ^ p)) # (2 * 2 ^ p))).
  - cbn [Qfloor]. rewrite Pos2Z.inj_mul, Pos2Z.inj_pow. reflexivity.
  - rewrite Qpow_2_neg. unfold Qeq, Qplus, Qmult, inject_Z. cbn [Qnum Qden].
    rewrite !Pos2Z.inj_mul. ring.
Qed.

Lemma Math_round_nearest x : Math_round x = nearest_integer x.
Proof.
  unfold Math_round, nearest_integer.
  destruct (Prim2SF x) as [ | | |s m e]; try reflexivity.
  destruct e as [|p|p]; try reflexivity.
  cbn [Z.leb Z.compare Z.opp].
  rewrite Qfloor_half_up.
  destruct s.
  - replace (2 * Z.neg m + 2 ^ Z.pos p)%Z with (2 ^ Z.pos p - 2 * Z.pos m)%Z by lia.
    reflexivity.
  - replace (2 * Z.pos m + 2 ^ Z.pos p)%Z with (2 * Z.pos m + 2 ^ Z.pos p)%Z by lia.
    destruct ((2 * Z.pos m + 2 ^ Z.pos p) / (2 * 2 ^ Z.pos p))%Z eqn:E; reflexivity.
Qed.

Lemma arithmetic_checks_findings l total vat :
  arithmetic_checks l total vat = (l ++ arithmetic_findings (VNum total) (VNum vat))%list.
Proof.
  unfold arithmetic_checks, arithmetic_findings. rewrite !push_when.
  rewrite Math_round_nearest. now rewrite <- app_assoc.
Qed.

Lemma total_penalty_app l1 l2 :
  total_penalty (l1 ++ l2) = (total_penalty l1 + total_penalty l2)%Z.
Proof.
  unfold total_penalty. induction l1 as [|i l1 IH]; cbn; [reflexivity|].
  rewrite IH. lia.
Qed.

Lemma total_penalty_nonneg l : 0 <= total_penalty l.
Proof.
  induction l as [|i l IH]; [cbn; lia|].
  change (total_penalty (i :: l)) with (severity_penalty (severity i) + total_penalty l).
  destruct (severity i); cbn [severity_penalty]; lia.
Qed.

Lemma penalty_step_spec acc i :
  penalty_step acc i = (acc + severity_penalty (severity i))%Z.
Proof. unfold penalty_step. destruct (severity i); reflexivity. Qed.

Lemma reduce_penalty l : forall acc,
  reduce penalty_step acc l = (acc + total_penalty l)%Z.
Proof.
  unfold reduce, total_penalty.
  induction l as [|i l IH]; intros acc; cbn.
  - lia.
  - rewrite IH, penalty_step_spec. lia.
Qed.

Lemma level_classify score :
  (if (85 <=? score)%Z then GREEN else if (60 <=? score)%Z then YELLOW else RED)
  = classify score.
Proof.
  unfold classify.
  destruct (85 <=? score)%Z eqn:E1, (60 <=? score)%Z eqn:E2,
           (score <? 60)%Z eqn:E3, (score <? 85)%Z eqn:E4; try reflexivity; lia.
Qed.

(** On an input that is neither [null] nor [undefined], validation is the
    three checks that convert a value to a string, followed by the
    composition of the report. *)
Lemma validate_unfold inv :
  is_nullish inv = false ->
  validateInvoiceLocally inv =
    let* bs := format_check (OptGet inv "supplierVat") in
    let* bc := format_check (OptGet inv "customerVat") in
    let* bi := id_check (OptGet inv "invoiceId") in
    Normal (compose inv (battery inv bs bc bi)).
Proof.
  intros Hinv. unfold validateInvoiceLocally.
  rewrite !(Get_OptGet inv) by assumption.
  unfold format_check, id_check.
  set (sv := OptGet inv "supplierVat"). set (cv := OptGet inv "customerVat").
  set (tv := OptGet inv "total"). set (vv := OptGet inv "vat").
  set (iv := OptGet inv "invoiceId"). set (cur := OptGet inv "currency").
  set (dv := OptGet inv "date").
  assert (Hfin : forall l,
    Normal {| level := if (85 <=? Z.max 0 (Z.min 100 (100 - reduce penalty_step 0 l)))%Z
                       then GREEN
                       else if (60 <=? Z.max 0 (Z.min 100 (100 - reduce penalty_step 0 l)))%Z
                            then YELLOW else RED;
              score := Z.max 0 (Z.min 100 (100 - reduce penalty_step 0 l));
              issues := l; meta := extractMeta inv |} = Normal (compose inv l)).
  { intros l. unfold compose, clamp. rewrite level_classify, reduce_penalty.
    reflexivity. }
  assert (Har : forall l,
    match tv with
    | VNum total =>
        match vv with
        | VNum vat => Normal (arithmetic_checks l total vat)
        | _ => Normal l
        end
    | _ => Normal l
    end = Normal (l ++ arithmetic_findings tv vv)%list).
  { intros l. destruct tv; try (cbn; now rewrite app_nil_r).
    destruct vv; try (cbn; now rewrite app_nil_r).
    now rewrite arithmetic_checks_findings. }
  unfold battery, currency_check. fold sv cv tv vv iv cur dv.
  cbn [bind].
  destruct (ToBoolean sv); [destruct (ToString sv) as [s1|]|]; cbn [bind];
    try reflexivity;
  (destruct (ToBoolean cv); [destruct (ToString cv) as [s2|]|]; cbn [bind];
    try reflexivity);
  rewrite Har; cbn [bind];
  (destruct (ToBoolean iv); [destruct (ToString iv) as [s3|]|]; cbn [bind]);
  destruct (ToBoolean cur); cbn [bind andb];
  rewrite ?Hfin, ?push_when; cbn [when app negb];
  rewrite <- ?app_assoc, ?app_nil_r; reflexivity.
Qed.

Lemma validate_inversion inv r :
  validateInvoiceLocally inv = Normal r ->
  is_nullish inv = false /\
  exists bs bc bi,
    format_check (OptGet inv "supplierVat") = Normal bs /\
    format_check (OptGet inv "customerVat") = Normal bc /\
    id_check (OptGet inv "invoiceId") = Normal bi /\
    r = compose inv (battery inv bs bc bi).
Proof.
  intros H.
  assert (Hinv : is_nullish inv = false)
    by (destruct inv; try reflexivity; discriminate H).
  split; [assumption|].
  rewrite (validate_unfold inv Hinv) in H.
  destruct (format_check (OptGet inv "supplierVat")) as [bs|]; [|discriminate H].
  destruct (format_check (OptGet inv "customerVat")) as [bc|]; [|discriminate H].
  destruct (id_check (OptGet inv "invoiceId")) as [bi|]; [|discriminate H].
  cbn [bind] in H. injection H as <-. now exists bs, bc, bi.
Qed.

(** *** Membership and penalty, check by check *)

Lemma has_code_app c l1 l2 :
  has_code c (l1 ++ l2) = has_code c l1 || has_code c l2.
Proof. apply existsb_app. Qed.

Lemma has_code_when c b i :
  has_code c (when b i) = b && String.eqb c (code i).
Proof. destruct b; cbn; [now rewrite orb_false_r | reflexivity]. Qed.

Lemma has_finding_app c s l1 l2 :
  has_finding c s (l1 ++ l2) = has_finding c s l1 || has_finding c s l2.
Proof. apply existsb_app. Qed.

Lemma has_finding_when c s b i :
  has_finding c s (when b i) =
  b && (String.eqb c (code i) && Severity_eqb s (severity i)).
Proof. destruct b; cbn; [now rewrite orb_false_r | reflexivity]. Qed.

Lemma total_penalty_when b i :
  total_penalty (when b i) = if b then severity_penalty (severity i) else 0.
Proof. destruct b; cbn; [lia | reflexivity]. Qed.

(** The arithmetic checks are skipped when an amount is missing. *)
Lemma arithmetic_skipped t v :
  is_nullish t || is_nullish v = true ->
  mismatch_check t v = false /\ subtotal_check t v = false.
Proof. destruct t, v; cbn; intros H; try discriminate H; split; reflexivity. Qed.

(** A format check that fails was run: the value is truthy. *)
Lemma format_check_truthy v :
  format_check v = Normal true -> ToBoolean v = true.
Proof. unfold format_check. destruct (ToBoolean v); [reflexivity | discriminate]. Qed.

(** Membership and penalty distribute over the checks of the battery. *)
Ltac battery_norm :=
  unfold battery, arithmetic_findings;
  repeat first
    [ rewrite has_code_app | rewrite has_code_when
    | rewrite has_finding_app | rewrite has_finding_when
    | rewrite total_penalty_app | rewrite total_penalty_when ].

Lemma has_code_battery c inv bs bc bi :
  has_code c (battery inv bs bc bi) =
  negb (ToBoolean (OptGet inv "supplierVat")) && (c =? "SUPPLIER_VAT")
  || (negb (ToBoolean (OptGet inv "customerVat")) && (c =? "CUSTOMER_VAT")
  || (negb (ToBoolean (OptGet inv "date")) && (c =? "DATE")
  || (is_nullish (OptGet inv "total") && (c =? "TOTAL")
  || (is_nullish (OptGet inv "vat") && (c =? "VAT")
  || (bs && (c =? "SUPPLIER_VAT_FMT")
  || (bc && (c =? "CUSTOMER_VAT_FMT")
  || ((mismatch_check (OptGet inv "total") (OptGet inv "vat") && (c =? "VAT_MISMATCH")
       || subtotal_check (OptGet inv "total") (OptGet inv "vat") && (c =? "SUBTOTAL_NEG"))
  || (currency_check (OptGet inv "currency") && (c =? "CURRENCY_UNSUPPORTED")
  || bi && (c =? "INVOICE_ID_WEAK"))))))))).
Proof. battery_norm. reflexivity. Qed.

Lemma total_penalty_battery inv bs bc bi :
  total_penalty (battery inv bs bc bi) =
  (if negb (ToBoolean (OptGet inv "supplierVat")) then 25 else 0)
  + ((if negb (ToBoolean (OptGet inv "customerVat")) then 12 else 0)
  + ((if negb (ToBoolean (OptGet inv "date")) then 12 else 0)
  + ((if is_nullish (OptGet inv "total") then 25 else 0)
  + ((if is_nullish (OptGet inv "vat") then 12 else 0)
  + ((if bs then 25 else 0)
  + ((if bc then 12 else 0)
  + (((if mismatch_check (OptGet inv "total") (OptGet inv "vat") then 12 else 0)
      + (if subtotal_check (OptGet inv "total") (OptGet inv "vat") then 25 else 0))
  + ((if currency_check (OptGet inv "currency") then 5 else 0)
  + (if bi then 5 else 0))))))))).
Proof. battery_norm. reflexivity. Qed.

(** ** The two fixed records of the specification *)

(** C1. The canonical sample record yields exactly one finding,
    VAT_MISMATCH of severity MED (medium), the score 88 and the level
    GREEN. *)
Theorem sample_report :
  exists r,
    validateInvoiceLocally sampleInvoice = Normal r /\
    findings r = [("VAT_MISMATCH", MED)] /\
    score r = 88%Z /\
    level r = GREEN.
Proof.
  eexists. split.
  - vm_compute. reflexivity.
  - repeat split.
Qed.

(** C5. The empty record yields the five missing-field findings and no
    other, the score 14 and the level RED. *)
Theorem empty_record_report :
  exists r,
    validateInvoiceLocally (VObj []) = Normal r /\
    findings r =
      [("SUPPLIER_VAT", HIGH); ("CUSTOMER_VAT", MED); ("DATE", MED);
       ("TOTAL", HIGH); ("VAT", MED)] /\
    score r = 14%Z /\
    level r = RED.
Proof.
  eexists. split.
  - vm_compute. reflexivity.
  - repeat split.
Qed.

(** ** Score and level *)

(** C3. The score of a report is 100 minus the summed penalties of its
    findings (HIGH 25, MEDIUM 12, LOW 5), clamped once to [0, 100]; so it
    lies between 0 and 100. *)
Theorem score_is_clamped_penalty_sum inv r :
  validateInvoiceLocally inv = Normal r ->
  score r = clamp 0 100 (100 - total_penalty (issues r)) /\
  0 <= score r <= 100.
Proof.
  intros H. apply validate_inversion in H as (_ & bs & bc & bi & _ & _ & _ & ->).
  cbn [compose score issues]. split; [reflexivity|].
  unfold clamp. lia.
Qed.

Lemma score_is_clamped_penalty_sum_witness :
  exists r,
    validateInvoiceLocally sampleInvoice = Normal r /\
    score r = clamp 0 100 (100 - total_penalty (issues r)) /\
    0 <= score r <= 100.
Proof.
  eexists. split.
  - vm_compute. reflexivity.
  - apply (score_is_clamped_penalty_sum sampleInvoice). vm_compute. reflexivity.
Defined.

(** C4. The level depends on the score alone: GREEN exactly from 85 up,
    YELLOW exactly from 60 up to but excluding 85, RED exactly below 60. *)
Theorem level_of_score inv r :
  validateInvoiceLocally inv = Normal r ->
  level r = classify (score r) /\
  (level r = GREEN <-> 85 <= score r) /\
  (level r = YELLOW <-> 60 <= score r < 85) /\
  (level r = RED <-> score r < 60).
Proof.
  intros H. apply validate_inversion in H as (_ & bs & bc & bi & _ & _ & _ & ->).
  cbn [compose score level]. split; [reflexivity|].
  unfold classify.
  destruct (Z.ltb_spec (clamp 0 100 (100 - total_penalty (battery inv bs bc bi))) 60);
    [|destruct (Z.ltb_spec (clamp 0 100 (100 - total_penalty (battery inv bs bc bi))) 85)];
    repeat split; intros; try discriminate; try reflexivity; lia.
Qed.

Lemma level_of_score_witness :
  exists r,
    validateInvoiceLocally (VObj []) = Normal r /\
    level r = classify (score r) /\
    (level r = GREEN <-> 85 <= score r) /\
    (level r = YELLOW <-> 60 <= score r < 85) /\
    (level r = RED <-> score r < 60).
Proof.
  eexists. split.
  - vm_compute. reflexivity.
  - apply (level_of_score (VObj [])). vm_compute. reflexivity.
Defined.

(** The heaviest battery: at most one finding per VAT number, and either
    the two missing amounts or the two arithmetic findings. *)
Lemma battery_penalty_bound inv bs bc bi :
  format_check (OptGet inv "supplierVat") = Normal bs ->
  format_check (OptGet inv "customerVat") = Normal bc ->
  total_penalty (battery inv bs bc bi) <= 96.
Proof.
  intros Hs Hc. battery_norm.
  assert (Es : bs = true -> ToBoolean (OptGet inv "supplierVat") = true)
    by (intros ->; now apply format_check_truthy).
  assert (Ec : bc = true -> ToBoolean (OptGet inv "customerVat") = true)
    by (intros ->; now apply format_check_truthy).
  pose proof (arithmetic_skipped (OptGet inv "total") (OptGet inv "vat")) as Ea.
  destruct (ToBoolean (OptGet inv "supplierVat")), bs;
    try (specialize (Es eq_refl); discriminate Es);
  destruct (ToBoolean (OptGet inv "customerVat")), bc;
    try (specialize (Ec eq_refl); discriminate Ec);
  destruct (is_nullish (OptGet inv "total")), (is_nullish (OptGet inv "vat"));
  destruct (mismatch_check (OptGet inv "total") (OptGet inv "vat")),
           (subtotal_check (OptGet inv "total") (OptGet inv "vat"));
    try (destruct (Ea eq_refl); discriminate);
  destruct (ToBoolean (OptGet inv "date")),
           (currency_check (OptGet inv "currency")), bi;
  cbn; lia.
Qed.

(** C9. Whenever validation returns, the penalties of the findings sum to at
    most 96: the score is at least 4, and the lower clamp at 0 never
    applies. *)
Theorem penalty_at_most_96 inv r :
  validateInvoiceLocally inv = Normal r ->
  total_penalty (issues r) <= 96 /\
  4 <= score r /\
  score r = 100 - total_penalty (issues r).
Proof.
  intros H. apply validate_inversion in H as (_ & bs & bc & bi & Hs & Hc & _ & ->).
  cbn [compose score issues].
  pose proof (battery_penalty_bound inv bs bc bi Hs Hc) as Hb.
  pose proof (total_penalty_nonneg (battery inv bs bc bi)).
  unfold clamp. lia.
Qed.

Lemma penalty_at_most_96_witness :
  exists r,
    validateInvoiceLocally
      (VObj [ (lit "total", VNum 0); (lit "vat", VNum 5);
              (lit "currency", VStr (lit "GBP")); (lit "invoiceId", VStr (lit "A")) ])
      = Normal r /\
    total_penalty (issues r) <= 96 /\
    4 <= score r /\
    score r = 100 - total_penalty (issues r).
Proof.
  eexists. split.
  - vm_compute. reflexivity.
  - apply (penalty_at_most_96
             (VObj [ (lit "total", VNum 0); (lit "vat", VNum 5);
                     (lit "currency", VStr (lit "GBP"));
                     (lit "invoiceId", VStr (lit "A")) ])).
    vm_compute. reflexivity.
Defined.

(** The bound of C9 is reached: this record scores exactly 4. *)
Example penalty_96_reached :
  exists r,
    validateInvoiceLocally
      (VObj [ (lit "total", VNum 0); (lit "vat", VNum 5);
              (lit "currency", VStr (lit "GBP")); (lit "invoiceId", VStr (lit "A")) ])
      = Normal r /\
    total_penalty (issues r) = 96 /\ score r = 4.
Proof.
  eexists. split.
  - vm_compute. reflexivity.
  - split; reflexivity.
Qed.

(** ** The arithmetic consistency check *)

Lemma produced_compose c s inv l :
  produced c s (compose inv l) = has_finding c s l.
Proof. reflexivity. Qed.

Lemma fires_compose c inv l : fires c (compose inv l) = has_code c l.
Proof. reflexivity. Qed.

(** C7, as the code has it.  With [total] and [vat] both numbers,
    VAT_MISMATCH (MED) is produced exactly when [|expectedVat - vat| > 1] and
    SUBTOTAL_NEG (HIGH) exactly when [subtotal <= 0], all of it in the
    arithmetic of the numbers (binary64, each operation rounded to the
    nearest number): [subtotal = total - vat], and [expectedVat] is
    [subtotal * 0.17 * 100] rounded to the nearest integer, ties towards
    +infinity, and divided by 100.  With [total] or [vat] not a number
    neither is produced. *)
Theorem arithmetic_rule inv r :
  validateInvoiceLocally inv = Normal r ->
  (forall total vat,
      OptGet inv "total" = VNum total -> OptGet inv "vat" = VNum vat ->
      (produced "VAT_MISMATCH" MED r = true <->
       (1 <? PrimFloat.abs (expectedVat_of total vat - vat))%float = true) /\
      (produced "SUBTOTAL_NEG" HIGH r = true <->
       (subtotal_of total vat <=? 0)%float = true)) /\
  (is_number (OptGet inv "total") && is_number (OptGet inv "vat") = false ->
   fires "VAT_MISMATCH" r = false /\ fires "SUBTOTAL_NEG" r = false).
Proof.
  intros H. apply validate_inversion in H as (_ & bs & bc & bi & _ & _ & _ & ->).
  split.
  - intros total vat Ht Hv. rewrite !produced_compose.
    unfold battery. rewrite Ht, Hv. battery_norm.
    fold (vat_mismatch total vat) (subtotal_nonpositive total vat).
    cbn. rewrite !andb_false_r, !andb_true_r, !orb_false_r. cbn.
    split; reflexivity.
  - intros Hn. rewrite !fires_compose. unfold battery.
    assert (Ha : arithmetic_findings (OptGet inv "total") (OptGet inv "vat") = []).
    { destruct (OptGet inv "total"); try reflexivity.
      destruct (OptGet inv "vat"); try reflexivity. discriminate Hn. }
    rewrite Ha. battery_norm. cbn.
    rewrite !andb_false_r. split; reflexivity.
Qed.

Lemma arithmetic_rule_witness :
  exists r,
    validateInvoiceLocally (VObj [(lit "total", VNum 14); (lit "vat", VNum 1.18)])
      = Normal r /\
    expectedVat_of 14 1.18 = 2.18%float /\
    produced "VAT_MISMATCH" MED r = true /\
    produced "SUBTOTAL_NEG" HIGH r = false.
Proof.
  eexists. split; [vm_compute; reflexivity|]. split; [vm_compute; reflexivity|].
  destruct (arithmetic_rule (VObj [(lit "total", VNum 14); (lit "vat", VNum 1.18)])
              _ eq_refl) as [Hnum _].
  destruct (Hnum 14%float 1.18%float eq_refl eq_refl) as [Hm Hs].
  split.
  - apply Hm. vm_compute. reflexivity.
  - vm_compute. reflexivity.
Defined.

(** C7, as stated, fails.  For the record [{total: 14, vat: 1.18}] exact
    arithmetic gives subtotal 12.82, expectedVat 2.18 (from 2.1794) and a
    difference of exactly 1.00, which is not above 1; the code subtracts the
    numbers nearest to 2.18 and 1.18, gets 1.0000000000000002, and produces
    VAT_MISMATCH. *)
Lemma exact_arithmetic_disagrees :
  exists r,
    validateInvoiceLocally (VObj [(lit "total", VNum 14); (lit "vat", VNum 1.18)])
      = Normal r /\
    StringToNumber (lit "14") = 14%float /\
    StringToNumber (lit "1.18") = 1.18%float /\
    Qeq (exact_expectedVat (14 # 1) (118 # 100)) (218 # 100) /\
    exact_vat_mismatch (14 # 1) (118 # 100) = false /\
    PrimFloat.abs (expectedVat_of 14 1.18 - 1.18) = 1.0000000000000002%float /\
    produced "VAT_MISMATCH" MED r = true.
Proof.
  eexists. split; [vm_compute; reflexivity|].
  repeat split; vm_compute; reflexivity.
Qed.

(** The exact values of the numbers do not save the statement either: for
    [{total: 6.09, vat: 0.03}] the number nearest to 0.03 lies below it, so
    that in exact arithmetic on the values of the two numbers the difference
    is above 1, while the code computes exactly 1 and produces no finding. *)
Example exact_values_disagree :
  exists r qt qv,
    validateInvoiceLocally (VObj [(lit "total", VNum 6.09); (lit "vat", VNum 0.03)])
      = Normal r /\
    exact_value 6.09 = Some qt /\ exact_value 0.03 = Some qv /\
    exact_vat_mismatch qt qv = true /\
    fires "VAT_MISMATCH" r = false.
Proof.
  eexists. eexists. eexists. split; [vm_compute; reflexivity|].
  repeat split; vm_compute; reflexivity.
Qed.

(** ** The format of the VAT numbers *)

(** The pattern [^\d{n}$] accepts the strings of exactly [n] ASCII digits. *)
Lemma test_digits_spec n : forall s,
  test_digits n s =
  (List.length s =? n)%nat && forallb (fun c => (48 <=? c) && (c <=? 57))%N s.
Proof.
  induction n as [|n IH]; intros [|c s]; try reflexivity.
  cbn [test_digits List.length forallb Nat.eqb]. rewrite IH. unfold is_digit.
  destruct (List.length s =? n)%nat, ((48 <=? c)%N && (c <=? 57)%N);
    reflexivity.
Qed.

Lemma format_check_nine_digits v s :
  ToString v = Normal s -> nine_ascii_digits s = true ->
  format_check v = Normal false.
Proof.
  intros Hs H9. unfold format_check. rewrite Hs. cbn [bind].
  rewrite test_digits_spec. fold (nine_ascii_digits s). rewrite H9.
  now destruct (ToBoolean v).
Qed.

(** A VAT number whose string form is nine digits passes its format
    check, whatever its type. *)
Lemma nine_digit_form_passes inv r field c s :
  In (field, c)
     [("supplierVat", "SUPPLIER_VAT_FMT"); ("customerVat", "CUSTOMER_VAT_FMT")] ->
  validateInvoiceLocally inv = Normal r ->
  ToString (OptGet inv field) = Normal s ->
  nine_ascii_digits s = true ->
  fires c r = false.
Proof.
  intros Hin H Hs H9.
  apply validate_inversion in H as (_ & bs & bc & bi & Hbs & Hbc & _ & ->).
  rewrite fires_compose, has_code_battery.
  destruct Hin as [E | [E | []]]; injection E as <- <-;
    rewrite (format_check_nine_digits _ _ Hs H9) in *.
  - injection Hbs as <-. cbn. now rewrite !andb_false_r.
  - injection Hbc as <-. cbn. now rewrite !andb_false_r.
Qed.

(** C10. The format checks test [String(value)]: a truthy value that is not
    a string, such as the number 123456789, and whose string form is exactly
    nine ASCII digits produces no SUPPLIER_VAT_FMT (as [supplierVat]) and no
    CUSTOMER_VAT_FMT (as [customerVat]). *)
Theorem vat_number_is_coerced inv r field c s :
  In (field, c)
     [("supplierVat", "SUPPLIER_VAT_FMT"); ("customerVat", "CUSTOMER_VAT_FMT")] ->
  validateInvoiceLocally inv = Normal r ->
  ToBoolean (OptGet inv field) = true ->
  is_string (OptGet inv field) = false ->
  ToString (OptGet inv field) = Normal s ->
  nine_ascii_digits s = true ->
  fires c r = false.
Proof.
  intros Hin H _ _ Hs H9. exact (nine_digit_form_passes inv r field c s Hin H Hs H9).
Qed.

Lemma vat_number_is_coerced_witness :
  exists r,
    validateInvoiceLocally (VObj [(lit "supplierVat", VNum 123456789)]) = Normal r /\
    ToString (VNum 123456789) = Normal (lit "123456789") /\
    fires "SUPPLIER_VAT_FMT" r = false.
Proof.
  eexists. split; [vm_compute; reflexivity|]. split; [vm_compute; reflexivity|].
  apply (vat_number_is_coerced
           (VObj [(lit "supplierVat", VNum 123456789)]) _
           "supplierVat" "SUPPLIER_VAT_FMT" (lit "123456789")).
  - left. reflexivity.
  - vm_compute. reflexivity.
  - vm_compute. reflexivity.
  - vm_compute. reflexivity.
  - vm_compute. reflexivity.
  - vm_compute. reflexivity.
Defined.

(** ** The normalizer *)

Lemma coalesce_present inv k v fallback :
  present inv k v -> nullish_coalesce (OptGet inv k) fallback = v.
Proof.
  intros (props & -> & Hk & Hv). unfold OptGet, Get. rewrite Hk.
  unfold nullish_coalesce. now rewrite Hv.
Qed.

Lemma coalesce_absent inv k fallback :
  (forall v, ~ present inv k v) ->
  nullish_coalesce (OptGet inv k) fallback = fallback.
Proof.
  intros Habs. unfold nullish_coalesce.
  destruct (is_nullish (OptGet inv k)) eqn:E; [reflexivity|].
  exfalso. destruct inv; try discriminate E.
  unfold OptGet, Get in E.
  destruct (own_property props (lit k)) as [v|] eqn:Hk; [|discriminate E].
  apply (Habs v). now exists props.
Qed.

(** C8. Each of the six tracked fields of the normalized metadata is the
    value of the record's field when it is there and not [null] or
    [undefined], untransformed (a number stays that number), and otherwise
    the fallback: the empty string, or ["ILS"] for [currency]. *)
Theorem extractMeta_fields inv k read fallback :
  In (k, read, fallback) tracked ->
  (forall v, present inv k v -> read (extractMeta inv) = v) /\
  ((forall v, ~ present inv k v) -> read (extractMeta inv) = fallback).
Proof.
  intros Hin.
  repeat (destruct Hin as [E | Hin];
          [injection E as <- <- <-; split;
           [intros v Hv; now apply coalesce_present
           |intros Habs; now apply coalesce_absent]|]).
  destruct Hin.
Qed.

Lemma extractMeta_fields_witness :
  total (extractMeta sampleInvoice) = VNum 1000 /\
  currency (extractMeta (VObj [])) = VStr (lit "ILS").
Proof.
  split.
  - apply (extractMeta_fields sampleInvoice "total" total (VStr (lit ""))).
    + cbn. tauto.
    + eexists. split; [reflexivity|]. split; reflexivity.
  - apply (extractMeta_fields (VObj []) "currency" currency (VStr (lit "ILS"))).
    + cbn. tauto.
    + intros v (props & E & Hk & _). injection E as <-. discriminate Hk.
Defined.

(** ** Abrupt completion *)

(** C2, at the inputs where it fails: on [null] and on [undefined] the
    unguarded read [inv.total] throws a [TypeError], and no report is
    returned. *)
Theorem validate_nullish_throws :
  validateInvoiceLocally VNull = Throw TypeError /\
  validateInvoiceLocally VUndefined = Throw TypeError.
Proof. split; reflexivity. Qed.

(** [ToString] returns exactly on the convertible values. *)
Lemma ToString_convertible : forall v,
  convertible v = true -> exists s, ToString v = Normal s.
Proof.
  fix IH 1. intros [ | |b|x|s|elems|props] Hv; cbn [ToString]; eauto.
  - induction elems as [|x rest IHrest]; [eauto|].
    cbn [convertible forallb] in Hv. apply andb_prop in Hv as [Hx Hrest].
    assert (Hhead : exists s, (if is_nullish x then Normal [] else ToString x) = Normal s).
    { destruct (is_nullish x); [eauto | now apply IH]. }
    destruct Hhead as [s ->]. cbn [bind].
    destruct rest as [|y rest']; [eauto|].
    destruct (IHrest Hrest) as [t ->]. cbn [bind]. eauto.
  - cbn [convertible] in Hv. destruct (has_own_property props "toString");
      [discriminate Hv | eauto].
Qed.

Lemma ToString_returns_convertible : forall v s,
  ToString v = Normal s -> convertible v = true.
Proof.
  fix IH 1. intros [ | |b|x|s0|elems|props] s Hs; try reflexivity.
  - cbn [convertible]. revert s Hs.
    induction elems as [|x rest IHrest]; intros s Hs; [reflexivity|].
    cbn [forallb]. cbn [ToString] in Hs.
    destruct (is_nullish x) eqn:Ex.
    + assert (Hx : convertible x = true) by (destruct x; try discriminate Ex; reflexivity).
      rewrite Hx. cbn [andb bind] in *.
      destruct rest as [|y rest']; [reflexivity|].
      match type of Hs with
      | bind ?j _ = _ => destruct j as [t|] eqn:Ej; [|discriminate Hs]
      end.
      exact (IHrest t Ej).
    + destruct (ToString x) as [sx|] eqn:Esx; [|discriminate Hs].
      rewrite (IH x sx Esx). cbn [andb bind] in *.
      destruct rest as [|y rest']; [reflexivity|].
      match type of Hs with
      | bind ?j _ = _ => destruct j as [t|] eqn:Ej; [|discriminate Hs]
      end.
      exact (IHrest t Ej).
  - cbn [ToString convertible] in *.
    destruct (has_own_property props "toString"); [discriminate Hs | reflexivity].
Qed.

Lemma format_check_returns v :
  (exists b, format_check v = Normal b) <-> survives v = true.
Proof.
  unfold format_check, survives. destruct (ToBoolean v); cbn [negb orb].
  - split.
    + intros [b Hb]. destruct (ToString v) as [s|] eqn:Es; [|discriminate Hb].
      exact (ToString_returns_convertible v s Es).
    + intros Hc. destruct (ToString_convertible v Hc) as [s ->]. cbn. eauto.
  - split; eauto.
Qed.

Lemma id_check_returns v :
  (exists b, id_check v = Normal b) <-> survives v = true.
Proof.
  unfold id_check, survives. destruct (ToBoolean v); cbn [negb orb].
  - split.
    + intros [b Hb]. destruct (ToString v) as [s|] eqn:Es; [|discriminate Hb].
      exact (ToString_returns_convertible v s Es).
    + intros Hc. destruct (ToString_convertible v Hc) as [s ->]. cbn. eauto.
  - split; eauto.
Qed.

(** Validation returns a report exactly on the inputs that are neither
    [null] nor [undefined] and whose [supplierVat], [customerVat] and
    [invoiceId] are falsy or convertible to a string. *)
Lemma validate_returns_iff inv :
  (exists r, validateInvoiceLocally inv = Normal r) <->
  is_nullish inv = false /\
  survives (OptGet inv "supplierVat") = true /\
  survives (OptGet inv "customerVat") = true /\
  survives (OptGet inv "invoiceId") = true.
Proof.
  split.
  - intros [r H]. apply validate_inversion in H as (Hinv & bs & bc & bi & Hs & Hc & Hi & _).
    repeat split; [assumption | apply format_check_returns | apply format_check_returns
                  | apply id_check_returns]; eauto.
  - intros (Hinv & Hs & Hc & Hi). rewrite (validate_unfold inv Hinv).
    apply format_check_returns in Hs as [bs ->].
    apply format_check_returns in Hc as [bc ->].
    apply id_check_returns in Hi as [bi ->]. cbn [bind]. eauto.
Qed.

(** An object value with an own [toString] property in a converted field
    makes validation throw as well. *)
Example validate_throws_on_own_toString :
  validateInvoiceLocally
    (VObj [(lit "supplierVat", VObj [(lit "toString", VNum 1)])]) = Throw TypeError.
Proof. reflexivity. Qed.

(** ** Replacing a field *)

Lemma jsstring_eqb_true a b : jsstring_eqb a b = true -> a = b.
Proof. unfold jsstring_eqb. now destruct (list_eq_dec N.eq_dec a b). Qed.

Lemma jsstring_eqb_refl a : jsstring_eqb a a = true.
Proof. unfold jsstring_eqb. now destruct (list_eq_dec N.eq_dec a a). Qed.

(** After [o[k] = v], the property [k] is [v] and every other property is
    as before. *)
Lemma own_property_set props k v k' :
  own_property (set_property props k v) k' =
  if jsstring_eqb k k' then Some v else own_property props k'.
Proof.
  induction props as [|[k0 v0] rest IH]; cbn [set_property own_property].
  - reflexivity.
  - destruct (jsstring_eqb k0 k) eqn:E0; cbn [own_property].
    + apply jsstring_eqb_true in E0 as ->.
      now destruct (jsstring_eqb k k').
    + rewrite IH. destruct (jsstring_eqb k0 k') eqn:E1; [|reflexivity].
      apply jsstring_eqb_true in E1 as ->.
      destruct (jsstring_eqb k k') eqn:E2; [|reflexivity].
      apply jsstring_eqb_true in E2 as ->.
      rewrite jsstring_eqb_refl in E0. discriminate E0.
Qed.

Lemma OptGet_set props k v k' :
  OptGet (VObj (set_property props (lit k) v)) k' =
  if jsstring_eqb (lit k) (lit k') then v else OptGet (VObj props) k'.
Proof.
  unfold OptGet, Get. rewrite own_property_set.
  now destruct (jsstring_eqb (lit k) (lit k')).
Qed.

Lemma clamp_monotone lo hi x y : x <= y -> clamp lo hi x <= clamp lo hi y.
Proof. unfold clamp. lia. Qed.

(** Comparisons of two literal names are evaluated. *)
Ltac eval_names :=
  repeat match goal with
  | |- context [jsstring_eqb (lit ?a) (lit ?b)] =>
      let e := eval vm_compute in (jsstring_eqb (lit a) (lit b)) in
      change (jsstring_eqb (lit a) (lit b)) with e
  | H : context [jsstring_eqb (lit ?a) (lit ?b)] |- _ =>
      let e := eval vm_compute in (jsstring_eqb (lit a) (lit b)) in
      change (jsstring_eqb (lit a) (lit b)) with e in H
  | |- context [String.eqb ?a ?b] =>
      let e := eval vm_compute in (String.eqb a b) in
      change (String.eqb a b) with e
  | H : context [String.eqb ?a ?b] |- _ =>
      let e := eval vm_compute in (String.eqb a b) in
      change (String.eqb a b) with e in H
  end.

(** A check run twice on one value has one outcome. *)
Ltac same_outcome :=
  repeat match goal with
  | H1 : ?x = Normal ?a, H2 : ?x = Normal ?b |- _ =>
      rewrite H1 in H2; injection H2 as <-
  end.

Ltac split_cases :=
  repeat match goal with
  | |- context [if ?b then _ else _] => destruct b
  end.

(** A penalty that stands on both sides of the comparison is kept as an
    unknown. *)
Ltac forget_common :=
  repeat match goal with
  | |- (100 - ?after < 100 - ?before <-> _) =>
      match after with
      | context [if ?b then ?x else ?y] =>
          match before with
          | context [if b then x else y] => generalize (if b then x else y); intro
          end
      end
  end.

(** Without the clamp: the penalties of a report sum to at most 96. *)
Lemma score_unclamped inv bs bc bi :
  format_check (OptGet inv "supplierVat") = Normal bs ->
  format_check (OptGet inv "customerVat") = Normal bc ->
  score (compose inv (battery inv bs bc bi)) = 100 - total_penalty (battery inv bs bc bi).
Proof.
  intros Hs Hc. cbn [compose score]. unfold clamp.
  pose proof (battery_penalty_bound inv bs bc bi Hs Hc).
  pose proof (total_penalty_nonneg (battery inv bs bc bi)). lia.
Qed.

(** C6, as the code has it.  Replacing a field so that a failing check of
    that field passes lowers the score in exactly three situations, and
    never otherwise: TOTAL was fixed and both VAT_MISMATCH and SUBTOTAL_NEG
    fail afterwards; VAT was fixed and SUBTOTAL_NEG fails afterwards;
    VAT_MISMATCH was fixed, SUBTOTAL_NEG passed before, and SUBTOTAL_NEG or
    TOTAL fails afterwards. *)
Theorem fixing_a_field_lowers_score_iff props field v' c r r' :
  validateInvoiceLocally (VObj props) = Normal r ->
  validateInvoiceLocally (VObj (set_property props (lit field) v')) = Normal r' ->
  In c (checks_of field) ->
  fires c r = true ->
  fires c r' = false ->
  (score r' < score r <-> lowers c r r' = true).
Proof.
  intros H H' Hin Hf Hf'.
  apply validate_inversion in H as (_ & bs & bc & bi & Hs & Hc & Hi & ->).
  apply validate_inversion in H' as (_ & bs' & bc' & bi' & Hs' & Hc' & Hi' & ->).
  rewrite (score_unclamped _ _ _ _ Hs Hc), (score_unclamped _ _ _ _ Hs' Hc').
  unfold lowers, checks_of in *.
  repeat match type of Hin with
         | context [String.eqb field ?n] =>
             destruct (String.eqb_spec field n) as [->|?]
         end;
    [ .. | destruct Hin ].
  all: cbn [In] in Hin.
  all: repeat (destruct Hin as [<-|Hin]); try destruct Hin.
  all: eval_names.
  all: rewrite ?fires_compose, ?has_code_battery, ?total_penalty_battery in *.
  all: rewrite ?OptGet_set in *.
  all: eval_names.
  all: cbn [andb orb negb] in *.
  all: rewrite ?andb_false_r, ?andb_true_r, ?orb_false_r in *.
  all: same_outcome.
  all: clear Hs Hc Hi; try clear Hs'; try clear Hc'; try clear Hi'.
  all: try match goal with
       | |- context [mismatch_check ?t ?v] =>
           match goal with
           | |- context [mismatch_check ?t' ?v'] =>
               lazymatch t' with
               | t => lazymatch v' with v => fail | _ => idtac end
               | _ => idtac
               end;
               pose proof (arithmetic_skipped t v);
               pose proof (arithmetic_skipped t' v')
           end
       end.
  all: forget_common.
  all: split_cases.
  all: cbn [andb orb negb] in *.
  all: repeat match goal with
       | H : _ || true = true -> _ |- _ => rewrite orb_true_r in H
       | H : _ || false = true -> _ |- _ => rewrite orb_false_r in H
       | H : true = true -> _ |- _ => specialize (H eq_refl)
       | H : false = true -> _ |- _ => clear H
       | H : _ /\ _ |- _ => destruct H
       | H : ?a = true -> _ |- _ => destruct a
       end.
  all: try discriminate.
  all: split; intros; try reflexivity; try discriminate; lia.
Qed.

Lemma fixing_a_field_lowers_score_iff_witness :
  exists r r',
    validateInvoiceLocally (VObj sampleWithoutTotal) = Normal r /\
    validateInvoiceLocally
      (VObj (set_property sampleWithoutTotal (lit "total") (VNum 1000))) = Normal r' /\
    score r = 75 /\ score r' = 88 /\
    (score r' < score r <-> lowers "TOTAL" r r' = true).
Proof.
  eexists. eexists.
  split; [vm_compute; reflexivity|]. split; [vm_compute; reflexivity|].
  split; [reflexivity|]. split; [reflexivity|].
  apply (fixing_a_field_lowers_score_iff sampleWithoutTotal "total" (VNum 1000) "TOTAL").
  - vm_compute. reflexivity.
  - vm_compute. reflexivity.
  - left. reflexivity.
  - vm_compute. reflexivity.
  - vm_compute. reflexivity.
Defined.

(** C6, as stated, fails.  On the sample without its [total] the check
    TOTAL fails; with [total: 100] it passes and every other field is
    unchanged, but now both arithmetic checks run and fail, and the score
    drops from 75 to 63. *)
Lemma fixing_total_can_lower_score :
  exists r r',
    validateInvoiceLocally (VObj sampleWithoutTotal) = Normal r /\
    validateInvoiceLocally
      (VObj (set_property sampleWithoutTotal (lit "total") (VNum 100))) = Normal r' /\
    In "TOTAL" (checks_of "total") /\
    fires "TOTAL" r = true /\
    fires "TOTAL" r' = false /\
    findings r' = [("VAT_MISMATCH", MED); ("SUBTOTAL_NEG", HIGH)] /\
    score r = 75 /\ score r' = 63 /\
    ~ score r <= score r'.
Proof.
  eexists. eexists.
  split; [vm_compute; reflexivity|]. split; [vm_compute; reflexivity|].
  repeat split.
  - left. reflexivity.
  - cbn. lia.
Qed.

(* ================================================================== *)
(** * Decoding and display *)
(* ================================================================== *)

(** ** More built-ins on known values *)

Example StringToNumber_values :
  map (fun s => StringToNumber (lit s))
      ["1000"; "0.1"; "0.30000000000000004"; "9007199254740993"; "000123.4500"]
  = [1000; 0.1; 0.1 + 0.2; 9007199254740992; 123.45]%float.
Proof. vm_compute. reflexivity. Qed.

Example StringToNumber_overflows :
  StringToNumber (lit "17976931348623158" ++ repeat 48%N 292)%list = 1.7976931348623157e308%float /\
  StringToNumber (lit "17976931348623159" ++ repeat 48%N 292)%list = infinity.
Proof. split; vm_compute; reflexivity. Qed.

Example test_decimal_values :
  map (fun s => test_decimal (lit s))
      ["12"; "12.5"; "007"; "12."; ".5"; ""; "1.2.3"; "-5"; "1e3"; "12a"]
  = [true; true; true; false; false; false; false; false; false; false].
Proof. vm_compute. reflexivity. Qed.

Example split_lines_values :
  map split_lines [[]; [97; 10; 98]; [97; 13; 10; 98; 13; 99; 10; 10; 13]]%N
  = [[[]]; [[97]; [98]]; [[97]; [98; 13; 99]; []; [13]]]%N.
Proof. vm_compute. reflexivity. Qed.

Example split_on_values :
  map (fun s => split_on 44%N (lit s)) [""; "a,b"; "a,,b,"]
  = [[[]]; [lit "a"; lit "b"]; [lit "a"; []; lit "b"; []]].
Proof. vm_compute. reflexivity. Qed.

(** ** Decoding a CSV text *)

Lemma jsstring_eqb_false a b : a <> b -> jsstring_eqb a b = false.
Proof. unfold jsstring_eqb. now destruct (list_eq_dec N.eq_dec a b). Qed.

Lemma own_property_assign props h v k :
  k <> lit "__proto__" ->
  own_property (assign props h v) k =
  if jsstring_eqb h k then Some v else own_property props k.
Proof.
  intros Hk. unfold assign.
  destruct (jsstring_eqb h (lit "__proto__")) eqn:E.
  - apply jsstring_eqb_true in E as ->.
    rewrite (jsstring_eqb_false _ _ (fun H => Hk (eq_sym H))). reflexivity.
  - apply own_property_set.
Qed.

Lemma own_property_assign_proto props h v :
  own_property (assign props h v) (lit "__proto__") =
  own_property props (lit "__proto__").
Proof.
  unfold assign. destruct (jsstring_eqb h (lit "__proto__")) eqn:E; [reflexivity|].
  rewrite own_property_set, E. reflexivity.
Qed.

Lemma assign_cells_lookup headers : forall obj i row k,
  k <> lit "__proto__" ->
  own_property (assign_cells obj headers i row) k =
  match last_cell headers i row k with
  | Some v => Some v
  | None => own_property obj k
  end.
Proof.
  induction headers as [|h rest IH]; intros obj i row k Hk; cbn [assign_cells last_cell].
  - reflexivity.
  - rewrite IH by assumption.
    destruct (last_cell rest (S i) row k); [reflexivity|].
    rewrite own_property_assign by assumption.
    now destruct (jsstring_eqb h k).
Qed.

Lemma assign_cells_proto headers : forall obj i row,
  own_property (assign_cells obj headers i row) (lit "__proto__") =
  own_property obj (lit "__proto__").
Proof.
  induction headers as [|h rest IH]; intros obj i row; cbn [assign_cells].
  - reflexivity.
  - rewrite IH. apply own_property_assign_proto.
Qed.

Lemma csv_field_last_cell text k :
  k <> lit "__proto__" ->
  csv_field text k = last_cell (csv_headers text) 0 (csv_row text) k.
Proof.
  intros Hk. unfold csv_field, csvToInvoice. rewrite assign_cells_lookup by assumption.
  now destruct (last_cell (csv_headers text) 0 (csv_row text) k).
Qed.

Lemma last_cell_at headers : forall i0 row k i,
  nth_error headers i = Some k ->
  (forall j, (i < j)%nat -> nth_error headers j <> Some k) ->
  last_cell headers i0 row k = Some (cell_value (nth_error row (i0 + i))).
Proof.
  induction headers as [|h rest IH]; intros i0 row k i Hi Hlast.
  - destruct i; discriminate Hi.
  - cbn [last_cell]. destruct i as [|i].
    + cbn in Hi. injection Hi as ->.
      assert (Hnone : last_cell rest (S i0) row k = None).
      { clear IH. assert (Hrest : forall j, nth_error rest j <> Some k)
          by (intros j; apply (Hlast (S j)); lia).
        clear Hlast. revert Hrest. generalize (S i0).
        induction rest as [|h' rest' IHr]; intros n Hrest; [reflexivity|].
        cbn [last_cell]. rewrite IHr by (intros j; apply (Hrest (S j))).
        rewrite jsstring_eqb_false; [reflexivity|].
        intros ->. now apply (Hrest O). }
      rewrite Hnone, jsstring_eqb_refl, Nat.add_0_r. reflexivity.
    + cbn in Hi. rewrite (IH (S i0) row k i Hi).
      * f_equal. f_equal. f_equal. lia.
      * intros j Hj. apply (Hlast (S j)). lia.
Qed.

(** X1. A header other than [__proto__] is a key of the decoded record, and
    its value is the cell of the last column with that header (a cell past
    the end of the row counting as empty). *)
Theorem csv_last_column_wins text k i :
  k <> lit "__proto__" ->
  nth_error (csv_headers text) i = Some k ->
  (forall j, (i < j)%nat -> nth_error (csv_headers text) j <> Some k) ->
  csv_field text k = Some (cell_value (nth_error (csv_row text) i)).
Proof.
  intros Hk Hi Hlast. rewrite csv_field_last_cell by assumption.
  now rewrite (last_cell_at _ 0%nat _ k i Hi Hlast).
Qed.

Lemma csv_last_column_wins_witness :
  csv_field (lit "a,a" ++ [10%N] ++ lit "1,x")%list (lit "a") = Some (VStr (lit "x")).
Proof.
  apply (csv_last_column_wins (lit "a,a" ++ [10%N] ++ lit "1,x")%list (lit "a") 1%nat).
  - vm_compute. discriminate.
  - vm_compute. reflexivity.
  - intros [|[|[|j]]] Hj; try lia; vm_compute; discriminate.
Defined.

Lemma last_cell_inv headers : forall i row k v,
  last_cell headers i row k = Some v ->
  In k headers /\ exists j, v = cell_value (nth_error row j).
Proof.
  induction headers as [|h rest IH]; intros i row k v H; [discriminate H|].
  cbn [last_cell] in H.
  destruct (last_cell rest (S i) row k) as [w|] eqn:E.
  - injection H as <-. destruct (IH _ _ _ _ E) as [Hin Hj]. split; [now right | exact Hj].
  - destruct (jsstring_eqb h k) eqn:Eh; [|discriminate H].
    apply jsstring_eqb_true in Eh as ->. injection H as <-. split; [now left | eauto].
Qed.

Lemma last_cell_some headers : forall i row k,
  In k headers -> exists j, last_cell headers i row k = Some (cell_value (nth_error row j)).
Proof.
  induction headers as [|h rest IH]; intros i row k Hin; [destruct Hin|].
  cbn [last_cell].
  destruct (last_cell rest (S i) row k) as [v|] eqn:E.
  - apply last_cell_inv in E as [_ [j ->]]. eauto.
  - destruct Hin as [->|Hin].
    + rewrite jsstring_eqb_refl. eauto.
    + destruct (IH (S i) row k Hin) as [j Hj]. rewrite E in Hj. discriminate Hj.
Qed.

Lemma csv_header_has_field text k :
  In k (csv_headers text) -> k <> lit "__proto__" -> csv_field text k <> None.
Proof.
  intros Hin Hk. rewrite csv_field_last_cell by assumption.
  destruct (last_cell_some _ 0%nat (csv_row text) k Hin) as [j ->]. discriminate.
Qed.

(** X2. The keys of a decoded CSV record are exactly the trimmed headers,
    except [__proto__], which is never a key. *)
Theorem csv_keys_are_headers text k :
  csv_field text k <> None <-> In k (csv_headers text) /\ k <> lit "__proto__".
Proof.
  split.
  - intros H. destruct (list_eq_dec N.eq_dec k (lit "__proto__")) as [->|Hk].
    + exfalso. apply H. unfold csv_field, csvToInvoice. now rewrite assign_cells_proto.
    + rewrite csv_field_last_cell in H by assumption.
      destruct (last_cell (csv_headers text) 0 (csv_row text) k) as [v|] eqn:E;
        [|now destruct H].
      split; [|assumption]. now apply last_cell_inv in E.
  - intros [Hin Hk]. now apply csv_header_has_field.
Qed.

Lemma cell_value_number_or_text cell : number_or_text (cell_value cell) = true.
Proof.
  unfold cell_value.
  destruct (test_decimal match cell with Some s => s | None => [] end) eqn:E; cbn.
  - reflexivity.
  - now rewrite E.
Qed.

Lemma csv_field_cell text k v :
  csv_field text k = Some v -> exists j, v = cell_value (nth_error (csv_row text) j).
Proof.
  intros H. destruct (list_eq_dec N.eq_dec k (lit "__proto__")) as [->|Hk].
  - unfold csv_field, csvToInvoice in H. rewrite assign_cells_proto in H. discriminate H.
  - rewrite csv_field_last_cell in H by assumption. now apply last_cell_inv in H.
Qed.

Lemma csv_field_number_or_text text k v :
  csv_field text k = Some v -> number_or_text v = true.
Proof.
  intros H. destruct (csv_field_cell text k v H) as [j ->].
  apply cell_value_number_or_text.
Qed.

(** X3. Every value of a decoded CSV record is a number or a string, and a
    string is never of the form [digits] or [digits.digits]: such a cell is
    stored as a number, a nine-digit VAT number included. *)
Theorem csv_values_number_or_text text k v :
  csv_field text k = Some v -> number_or_text v = true.
Proof. exact (csv_field_number_or_text text k v). Qed.

Lemma csv_values_number_or_text_witness :
  csv_field testCsv (lit "supplierVat") = Some (VNum 512345679) /\
  number_or_text (VNum 512345679) = true.
Proof.
  split; [vm_compute; reflexivity|].
  apply (csv_values_number_or_text testCsv (lit "supplierVat")).
  vm_compute. reflexivity.
Defined.

Lemma In_trimStart c s : In c (trimStart s) -> In c s.
Proof.
  induction s as [|a s IH]; cbn [trimStart]; [easy|].
  destruct (is_white_space a); [right; now apply IH | easy].
Qed.

Lemma split_lines_one_line s : ~ In 10%N s -> split_lines s = [s].
Proof.
  induction s as [|c rest IH]; intros Hlf; [reflexivity|].
  cbn [split_lines].
  assert (Hc : (c =? 10)%N = false) by (apply N.eqb_neq; intros ->; apply Hlf; now left).
  destruct rest as [|c2 rest2]; [now rewrite Hc|].
  assert (Hc2 : (c2 =? 10)%N = false)
    by (apply N.eqb_neq; intros ->; apply Hlf; right; now left).
  rewrite Hc, Hc2, andb_false_r.
  rewrite IH by (intros H; apply Hlf; now right). reflexivity.
Qed.

(** X4. When the trimmed text has no line feed (a header line and no row,
    the empty text included), every header other than [__proto__] is a key
    whose value is the empty string. *)
Theorem csv_header_only text k :
  ~ In 10%N (trim text) ->
  In k (csv_headers text) -> k <> lit "__proto__" ->
  csv_field text k = Some (VStr []).
Proof.
  intros Hlf Hin Hk.
  assert (Hrow : csv_row text = [])
    by (unfold csv_row, csv_lines; now rewrite (split_lines_one_line _ Hlf)).
  rewrite csv_field_last_cell, Hrow by assumption.
  destruct (last_cell_some _ 0%nat [] k Hin) as [j ->].
  now destruct j.
Qed.

Lemma csv_header_only_witness :
  csv_field (lit "total,vat") (lit "total") = Some (VStr []) /\
  csv_field [] [] = Some (VStr []).
Proof.
  split.
  - apply (csv_header_only (lit "total,vat") (lit "total")).
    + vm_compute. intuition discriminate.
    + vm_compute. tauto.
    + vm_compute. discriminate.
  - apply (csv_header_only [] []).
    + vm_compute. tauto.
    + vm_compute. tauto.
    + vm_compute. discriminate.
Defined.

Lemma OptGet_csv text name :
  OptGet (csvToInvoice text) name =
  match csv_field text (lit name) with Some v => v | None => VUndefined end.
Proof.
  unfold OptGet, Get, csv_field, csvToInvoice.
  now destruct (own_property _ (lit name)).
Qed.

Lemma number_or_text_convertible v : number_or_text v = true -> convertible v = true.
Proof. destruct v; cbn; intros H; try discriminate H; reflexivity. Qed.

Lemma csv_survives text name : survives (OptGet (csvToInvoice text) name) = true.
Proof.
  rewrite OptGet_csv. destruct (csv_field text (lit name)) as [v|] eqn:E; [|reflexivity].
  unfold survives.
  rewrite (number_or_text_convertible v (csv_field_number_or_text _ _ _ E)).
  apply orb_true_r.
Qed.

Lemma fmt_number_or_text v :
  number_or_text v = true -> exists s, fmt v = Normal s.
Proof.
  destruct v as [ | | |x|s| | ]; cbn; intros H; try discriminate H.
  - eauto.
  - destruct s; cbn; eauto.
Qed.

Lemma fmt_csv_meta text name :
  exists s, fmt (nullish_coalesce (OptGet (csvToInvoice text) name) (VStr (lit ""))) = Normal s.
Proof.
  rewrite OptGet_csv. destruct (csv_field text (lit name)) as [v|] eqn:E.
  - pose proof (csv_field_number_or_text _ _ _ E) as Hv.
    replace (nullish_coalesce v (VStr (lit ""))) with v
      by (destruct v; try discriminate Hv; reflexivity).
    now apply fmt_number_or_text.
  - cbn. eauto.
Qed.

(** X5. On every decoded CSV record the validator returns a report and the
    preview its six values: the CSV path never throws. *)
Theorem csv_record_is_validated_and_previewed text :
  (exists r, validateInvoiceLocally (csvToInvoice text) = Normal r) /\
  (exists dd, InvoicePreview_dd (csvToInvoice text) = Normal dd).
Proof.
  split.
  - apply validate_returns_iff. repeat split; try apply csv_survives.
  - unfold InvoicePreview_dd. cbn [extractMeta vat total].
    destruct (fmt_csv_meta text "vat") as [v ->].
    destruct (fmt_csv_meta text "total") as [t ->].
    cbn [bind]. eauto.
Qed.

(** X6. When the CSV has a column [total] (or [vat]), the finding TOTAL (or
    VAT) is never produced, whatever the cell holds: an empty cell is stored
    as the empty string, which is not [null]. *)
Theorem csv_amount_never_missing text field c r :
  In (field, c) [("total", "TOTAL"); ("vat", "VAT")] ->
  In (lit field) (csv_headers text) ->
  validateInvoiceLocally (csvToInvoice text) = Normal r ->
  fires c r = false.
Proof.
  intros Hfc Hin H.
  assert (Hnn : is_nullish (OptGet (csvToInvoice text) field) = false).
  { rewrite OptGet_csv.
    destruct (csv_field text (lit field)) as [v|] eqn:E.
    - pose proof (csv_field_number_or_text _ _ _ E) as Hv.
      destruct v; try discriminate Hv; reflexivity.
    - exfalso. revert E. apply csv_header_has_field; [assumption|].
      destruct Hfc as [E|[E|[]]]; injection E as <- _; vm_compute; discriminate. }
  apply validate_inversion in H as (_ & bs & bc & bi & _ & _ & _ & ->).
  rewrite fires_compose, has_code_battery.
  destruct Hfc as [E|[E|[]]]; injection E as <- <-; rewrite Hnn; eval_names;
    cbn [andb orb]; now rewrite !andb_false_r.
Qed.

Lemma csv_amount_never_missing_witness :
  exists r,
    validateInvoiceLocally (csvToInvoice (lit "total,vat")) = Normal r /\
    fires "TOTAL" r = false.
Proof.
  eexists. split; [vm_compute; reflexivity|].
  apply (csv_amount_never_missing (lit "total,vat") "total" "TOTAL").
  - left. reflexivity.
  - vm_compute. tauto.
  - vm_compute. reflexivity.
Defined.

(** The third dev test expects the string ['512345679'] for [supplierVat];
    the decoder gives the number. *)
Example testCsv_decoded :
  csv_field testCsv (lit "supplierVat") = Some (VNum 512345679) /\
  csv_field testCsv (lit "total") = Some (VNum 1000) /\
  csv_field testCsv (lit "date") = Some (VStr (lit "2025-09-12")).
Proof. repeat split; vm_compute; reflexivity. Qed.

(** A nine-digit VAT number with a leading zero loses it as a number, and
    then fails the format check. *)
Example leading_zero_fails_format :
  exists r,
    validateInvoiceLocally
      (csvToInvoice (lit "supplierVat" ++ [10%N] ++ lit "012345678")%list) = Normal r /\
    fires "SUPPLIER_VAT_FMT" r = true.
Proof. eexists. split; vm_compute; reflexivity. Qed.


(** ** The battery as a whole *)

Lemma battery_in_rule_order inv bs bc bi :
  map code (battery inv bs bc bi) =
  filter (fun c => has_code c (battery inv bs bc bi)) rule_order.
Proof.
  unfold battery, arithmetic_findings.
  destruct (negb (ToBoolean (OptGet inv "supplierVat"))),
           (negb (ToBoolean (OptGet inv "customerVat"))),
           (negb (ToBoolean (OptGet inv "date"))),
           (is_nullish (OptGet inv "total")), (is_nullish (OptGet inv "vat")),
           bs, bc,
           (mismatch_check (OptGet inv "total") (OptGet inv "vat")),
           (subtotal_check (OptGet inv "total") (OptGet inv "vat")),
           (currency_check (OptGet inv "currency")), bi;
    reflexivity.
Qed.

(** X7. The issues of a report are in the order of the checks, and no code
    occurs twice: the codes are the rule order filtered by what fires. *)
Theorem findings_in_rule_order inv r :
  validateInvoiceLocally inv = Normal r ->
  map code (issues r) = filter (fun c => fires c r) rule_order.
Proof.
  intros H. apply validate_inversion in H as (_ & bs & bc & bi & _ & _ & _ & ->).
  apply battery_in_rule_order.
Qed.

Lemma findings_in_rule_order_witness :
  exists r,
    validateInvoiceLocally (VObj []) = Normal r /\
    map code (issues r) = filter (fun c => fires c r) rule_order.
Proof.
  eexists. split; [vm_compute; reflexivity|].
  apply (findings_in_rule_order (VObj [])). vm_compute. reflexivity.
Defined.

(** X8. A report never holds both the missing and the format finding of one
    VAT number, nor a missing amount together with an arithmetic finding. *)
Theorem exclusive_findings inv r :
  validateInvoiceLocally inv = Normal r ->
  fires "SUPPLIER_VAT" r && fires "SUPPLIER_VAT_FMT" r = false /\
  fires "CUSTOMER_VAT" r && fires "CUSTOMER_VAT_FMT" r = false /\
  (fires "TOTAL" r || fires "VAT" r)
    && (fires "VAT_MISMATCH" r || fires "SUBTOTAL_NEG" r) = false.
Proof.
  intros H. apply validate_inversion in H as (_ & bs & bc & bi & Hs & Hc & _ & ->).
  rewrite !fires_compose, !has_code_battery. eval_names.
  cbn [andb orb]. rewrite ?andb_false_r, ?andb_true_r, ?orb_false_r.
  cbn [orb].
  pose proof (arithmetic_skipped (OptGet inv "total") (OptGet inv "vat")) as Ha.
  repeat split.
  - destruct bs; [|apply andb_false_r].
    now rewrite (format_check_truthy _ Hs).
  - destruct bc; [|apply andb_false_r].
    now rewrite (format_check_truthy _ Hc).
  - destruct (is_nullish (OptGet inv "total") || is_nullish (OptGet inv "vat"));
      [|reflexivity].
    destruct (Ha eq_refl) as [-> ->]. reflexivity.
Qed.

Lemma exclusive_findings_witness :
  exists r,
    validateInvoiceLocally sampleInvoice = Normal r /\
    fires "SUPPLIER_VAT" r && fires "SUPPLIER_VAT_FMT" r = false /\
    fires "CUSTOMER_VAT" r && fires "CUSTOMER_VAT_FMT" r = false /\
    (fires "TOTAL" r || fires "VAT" r)
      && (fires "VAT_MISMATCH" r || fires "SUBTOTAL_NEG" r) = false.
Proof.
  eexists. split; [vm_compute; reflexivity|].
  apply (exclusive_findings sampleInvoice). vm_compute. reflexivity.
Defined.

Lemma high_costs_25 l :
  existsb (fun i => Severity_eqb (severity i) HIGH) l = true -> 25 <= total_penalty l.
Proof.
  induction l as [|i l IH]; [discriminate|].
  change (total_penalty (i :: l)) with (severity_penalty (severity i) + total_penalty l).
  cbn [existsb]. pose proof (total_penalty_nonneg l) as Hl.
  destruct (severity i); cbn [Severity_eqb orb severity_penalty]; intros Hh;
    try specialize (IH Hh); lia.
Qed.

(** X9. A report with a finding of severity HIGH is never GREEN. *)
Theorem high_finding_is_never_green inv r :
  validateInvoiceLocally inv = Normal r ->
  has_high r = true -> level r <> GREEN.
Proof.
  intros H Hh. apply validate_inversion in H as (_ & bs & bc & bi & _ & _ & _ & ->).
  unfold has_high in Hh. cbn [compose issues level] in *.
  apply high_costs_25 in Hh. unfold classify, clamp.
  destruct (Z.ltb_spec (Z.max 0 (Z.min 100 (100 - total_penalty (battery inv bs bc bi)))) 60);
    [discriminate|].
  destruct (Z.ltb_spec (Z.max 0 (Z.min 100 (100 - total_penalty (battery inv bs bc bi)))) 85);
    [discriminate | lia].
Qed.

Lemma high_finding_is_never_green_witness :
  exists r,
    validateInvoiceLocally (VObj sampleWithoutTotal) = Normal r /\
    has_high r = true /\ level r <> GREEN.
Proof.
  eexists. split; [vm_compute; reflexivity|]. split; [vm_compute; reflexivity|].
  apply (high_finding_is_never_green (VObj sampleWithoutTotal)).
  - vm_compute. reflexivity.
  - vm_compute. reflexivity.
Defined.

Lemma no_penalty_no_finding l : total_penalty l = 0 -> l = [].
Proof.
  destruct l as [|i l]; [reflexivity|].
  change (total_penalty (i :: l)) with (severity_penalty (severity i) + total_penalty l).
  pose proof (total_penalty_nonneg l). destruct (severity i); cbn [severity_penalty]; lia.
Qed.

(** X10. The score is 100 exactly when the report has no finding. *)
Theorem full_score_iff_no_finding inv r :
  validateInvoiceLocally inv = Normal r ->
  score r = 100 <-> issues r = [].
Proof.
  intros H. apply validate_inversion in H as (_ & bs & bc & bi & _ & _ & _ & ->).
  cbn [compose issues score]. unfold clamp.
  pose proof (total_penalty_nonneg (battery inv bs bc bi)).
  split.
  - intros Hs. apply no_penalty_no_finding. lia.
  - intros ->. reflexivity.
Qed.

Lemma full_score_iff_no_finding_witness :
  exists r,
    validateInvoiceLocally
      (VObj (set_property sampleWithoutTotal (lit "total") (VNum 1170))) = Normal r /\
    (score r = 100 <-> issues r = []) /\ score r = 100.
Proof.
  eexists. split; [vm_compute; reflexivity|]. split; [|vm_compute; reflexivity].
  apply (full_score_iff_no_finding
           (VObj (set_property sampleWithoutTotal (lit "total") (VNum 1170)))).
  vm_compute. reflexivity.
Defined.

Lemma OptGet_set_other props k v name :
  k <> lit name ->
  OptGet (VObj (set_property props k v)) name = OptGet (VObj props) name.
Proof.
  intros Hk. unfold OptGet, Get. rewrite own_property_set.
  unfold jsstring_eqb. destruct (list_eq_dec N.eq_dec k (lit name)); [contradiction|].
  reflexivity.
Qed.

(** X11. An own property whose name is none of the seven recognized ones
    has no effect: defining it with any value, as [JSON.parse] does for a
    member of the record, leaves the whole outcome, report or throw,
    unchanged. *)
Theorem unrecognized_field_is_ignored props k v :
  (forall name, In name recognized -> k <> lit name) ->
  validateInvoiceLocally (VObj (set_property props k v)) =
  validateInvoiceLocally (VObj props).
Proof.
  intros Hk.
  rewrite !validate_unfold by reflexivity.
  unfold battery, compose, extractMeta.
  rewrite !(OptGet_set_other props k v) by (apply Hk; cbn; tauto).
  reflexivity.
Qed.

Lemma unrecognized_field_is_ignored_witness :
  validateInvoiceLocally
    (VObj (set_property sampleWithoutTotal (lit "toString") (VNum 1))) =
  validateInvoiceLocally (VObj sampleWithoutTotal).
Proof.
  apply (unrecognized_field_is_ignored sampleWithoutTotal (lit "toString") (VNum 1)).
  intros name Hin. cbn in Hin.
  repeat (destruct Hin as [<-|Hin]; [vm_compute; discriminate|]). destruct Hin.
Defined.

Lemma lit_below_256 s : Forall (fun c => (c < 256)%N) (lit s).
Proof.
  unfold lit. induction s as [|a s IH]; cbn; constructor.
  - apply N_ascii_bounded.
  - exact IH.
Qed.

(** X12. [fmt] renders the empty string, [null] and [undefined] as the
    placeholder, and a number as its decimal string ([Number::toString]),
    which is never the placeholder: zero, of either sign, is shown as
    ["0"]. *)
Theorem fmt_placeholder :
  (forall v, v = VStr [] \/ is_nullish v = true -> fmt v = Normal dash) /\
  (forall x, fmt (VNum x) = Normal (lit (Number_toString x)) /\
             lit (Number_toString x) <> dash) /\
  fmt (VNum 0) = Normal (lit "0") /\
  fmt (VNum neg_zero) = Normal (lit "0").
Proof.
  split; [|split; [|split; vm_compute; reflexivity]].
  - intros v [-> | Hv]; [reflexivity|]. unfold fmt. rewrite Hv. now rewrite orb_true_r.
  - intros x. split; [reflexivity|].
    intros E. pose proof (lit_below_256 (Number_toString x)) as Hb.
    rewrite E in Hb. inversion Hb as [|c l Hc _]. vm_compute in Hc. discriminate Hc.
Qed.

Lemma or_dash_falsy a fallback :
  ToBoolean a = false -> ToBoolean fallback = false ->
  or_dash (nullish_coalesce a fallback) = VStr dash.
Proof.
  intros Ha Hf. unfold or_dash, nullish_coalesce.
  destruct (is_nullish a); [now rewrite Hf | now rewrite Ha].
Qed.

Lemma fmt_nullish a : is_nullish a = true ->
  fmt (nullish_coalesce a (VStr (lit ""))) = Normal dash.
Proof. intros Ha. unfold nullish_coalesce. now rewrite Ha. Qed.

(** X13. Whenever SUPPLIER_VAT, CUSTOMER_VAT, DATE, VAT or TOTAL is among the
    findings, the preview shows the placeholder for that field. *)
Theorem missing_field_shows_placeholder inv r dd field c i :
  In (field, c, i)
     [ ("supplierVat", "SUPPLIER_VAT", 0%nat); ("customerVat", "CUSTOMER_VAT", 1%nat);
       ("date", "DATE", 2%nat); ("vat", "VAT", 4%nat); ("total", "TOTAL", 5%nat) ] ->
  validateInvoiceLocally inv = Normal r ->
  InvoicePreview_dd inv = Normal dd ->
  fires c r = true ->
  nth_error dd i = Some (VStr dash).
Proof.
  intros Hin H Hdd Hf.
  apply validate_inversion in H as (_ & bs & bc & bi & _ & _ & _ & ->).
  rewrite fires_compose, has_code_battery in Hf.
  unfold InvoicePreview_dd in Hdd. cbn [extractMeta vat total supplierVat customerVat date currency] in Hdd.
  repeat (destruct Hin as [E|Hin]; [injection E as <- <- <-|]); try destruct Hin;
    eval_names; cbn [andb orb] in Hf;
    rewrite ?andb_false_r, ?andb_true_r, ?orb_false_r in Hf; cbn [orb] in Hf.
  - apply negb_true_iff in Hf.
    destruct (fmt _) as [v|]; [|discriminate Hdd]. destruct (fmt _) as [t|]; [|discriminate Hdd].
    injection Hdd as <-. cbn [nth_error]. now rewrite or_dash_falsy.
  - apply negb_true_iff in Hf.
    destruct (fmt _) as [v|]; [|discriminate Hdd]. destruct (fmt _) as [t|]; [|discriminate Hdd].
    injection Hdd as <-. cbn [nth_error]. now rewrite or_dash_falsy.
  - apply negb_true_iff in Hf.
    destruct (fmt _) as [v|]; [|discriminate Hdd]. destruct (fmt _) as [t|]; [|discriminate Hdd].
    injection Hdd as <-. cbn [nth_error]. now rewrite or_dash_falsy.
  - rewrite (fmt_nullish _ Hf) in Hdd. cbn [bind] in Hdd.
    destruct (fmt _) as [t|]; [|discriminate Hdd].
    injection Hdd as <-. reflexivity.
  - destruct (fmt _) as [v|]; [|discriminate Hdd]. cbn [bind] in Hdd.
    rewrite (fmt_nullish _ Hf) in Hdd. injection Hdd as <-. reflexivity.
Qed.

Lemma missing_field_shows_placeholder_witness :
  exists r dd,
    validateInvoiceLocally (VObj sampleWithoutTotal) = Normal r /\
    InvoicePreview_dd (VObj sampleWithoutTotal) = Normal dd /\
    nth_error dd 5 = Some (VStr dash).
Proof.
  eexists. eexists. split; [vm_compute; reflexivity|]. split; [vm_compute; reflexivity|].
  eapply (missing_field_shows_placeholder (VObj sampleWithoutTotal) _ _ "total" "TOTAL" 5%nat).
  - cbn. tauto.
  - vm_compute. reflexivity.
  - vm_compute. reflexivity.
  - vm_compute. reflexivity.
Defined.

(** An empty [total] cell of a CSV shows the placeholder as well, with no
    TOTAL finding: the converse of the above fails. *)
Example placeholder_without_finding :
  exists r dd,
    validateInvoiceLocally (csvToInvoice (lit "total,vat")) = Normal r /\
    InvoicePreview_dd (csvToInvoice (lit "total,vat")) = Normal dd /\
    nth_error dd 5 = Some (VStr dash) /\ fires "TOTAL" r = false.
Proof. eexists. eexists. repeat split; vm_compute; reflexivity. Qed.

Lemma fmt_returns_iff v :
  (exists s, fmt v = Normal s) <-> convertible v = true.
Proof.
  unfold fmt.
  destruct ((match v with VStr [] => true | _ => false end) || is_nullish v) eqn:E.
  - split; [intros _|eauto].
    destruct v as [ | | | |[|c s]| | ]; try discriminate E; reflexivity.
  - split.
    + intros [s Hs]. exact (ToString_returns_convertible v s Hs).
    + apply ToString_convertible.
Qed.

Lemma convertible_coalesce a :
  convertible (nullish_coalesce a (VStr (lit ""))) = convertible a.
Proof. now destruct a. Qed.

(** X14. The preview returns its values exactly when [vat] and [total] can be
    converted to strings; on [null] and [undefined], where the validator
    throws, it returns. *)
Theorem InvoicePreview_returns_iff data :
  (exists dd, InvoicePreview_dd data = Normal dd) <->
  convertible (OptGet data "vat") = true /\ convertible (OptGet data "total") = true.
Proof.
  unfold InvoicePreview_dd. cbn [extractMeta vat total].
  rewrite <- (convertible_coalesce (OptGet data "vat")),
          <- (convertible_coalesce (OptGet data "total")).
  rewrite <- !fmt_returns_iff.
  destruct (fmt (nullish_coalesce (OptGet data "vat") (VStr (lit "")))) as [v|];
    destruct (fmt (nullish_coalesce (OptGet data "total") (VStr (lit "")))) as [t|];
    cbn [bind]; split; try (intros [dd Hdd]; discriminate Hdd); eauto.
  - intros [_ [s Hs]]. discriminate Hs.
  - intros [[s Hs] _]. discriminate Hs.
  - intros [[s Hs] _]. discriminate Hs.
Qed.

Example InvoicePreview_on_null :
  validateInvoiceLocally VNull = Throw TypeError /\
  InvoicePreview_dd VNull =
    Normal [VStr dash; VStr dash; VStr dash; VStr (lit "ILS"); VStr dash; VStr dash].
Proof. split; reflexivity. Qed.

